(** * Image editor, CSV export and structured-extraction services

  A shallow embedding of the client-side image editing pipeline
  (components/ImageEditor), of the export helpers and the edit-save
  callback of the tool views, and of the two versions of the
  structured-extraction service that the repository contains; then of
  the file intake (components/ImageUploader), of the other operations of
  the service, of the key selection of the build configuration and of
  the processing states of the four tool views.

  JavaScript numbers are idealised as real numbers: rounding, NaN and
  the infinities are outside the model, which is why every statement on
  the pointer-drag arithmetic assumes a rendered container box of
  positive size (a division by zero is not a real number).  Canvas
  dimensions are whole numbers, as in the DOM: assigning a number to
  [canvas.width] truncates it. *)

From Stdlib Require Import Reals Lra Lia ZArith List String Ascii Bool.
Import ListNotations.

Local Open Scope R_scope.

(** ** Platform helpers (ECMAScript and DOM behaviour the code relies on) *)

Module Js.

(** [String.prototype.split] with a one-character separator: the pieces
    between the separators, always at least one piece. *)
Fixpoint split (sep : ascii) (s : string) : list string :=
  match s with
  | EmptyString => [EmptyString]
  | String c rest =>
      if Ascii.eqb c sep then EmptyString :: split sep rest
      else match split sep rest with
           | [] => [String c EmptyString]
           | piece :: pieces => String c piece :: pieces
           end
  end.

(** [Array.prototype.join] on an array of strings. *)
Fixpoint join (sep : string) (l : list string) : string :=
  match l with
  | [] => EmptyString
  | [s] => s
  | s :: rest => (s ++ sep ++ join sep rest)%string
  end.

(** [a || b] on a possibly undefined string: the empty string and
    [undefined] are the two falsy cases. *)
Definition or_else (a : option string) (b : string) : string :=
  match a with
  | Some EmptyString => b
  | Some s => s
  | None => b
  end.

(** Does the character occur in the string? *)
Fixpoint contains (c : ascii) (s : string) : bool :=
  match s with
  | EmptyString => false
  | String d rest => Ascii.eqb d c || contains c rest
  end.

(** The base64 alphabet: letters, digits, [+], [/] and the padding [=]. *)
Definition is_base64_char (c : ascii) : bool :=
  let n := nat_of_ascii c in
  ((65 <=? n) && (n <=? 90) || (97 <=? n) && (n <=? 122)
   || (48 <=? n) && (n <=? 57) || (n =? 43) || (n =? 47) || (n =? 61))%nat.

Fixpoint is_base64 (s : string) : bool :=
  match s with
  | EmptyString => true
  | String c rest => is_base64_char c && is_base64 rest
  end.

(** Truncation toward zero of a real number. *)
Definition trunc (v : R) : Z :=
  if Rle_dec 0 v then Int_part v else (- Int_part (- v))%Z.

(** Assignment to a reflected [unsigned long] attribute limited to
    non-negative numbers with a default, as [canvas.width] and
    [canvas.height] are: the number is truncated, taken modulo 2^32, and
    replaced by the default when it exceeds 2^31 - 1. *)
Definition to_dimension (default : Z) (v : R) : Z :=
  let n := ((trunc v) mod 4294967296)%Z in
  if (n <=? 2147483647)%Z then n else default.

End Js.

(** ** The 2D canvas: current transform, filter, and what was painted *)

Module Canvas2D.

(** An affine map in the canvas convention:
    x' = a x + c y + e, y' = b x + d y + f. *)
Record Affine := mkAffine { ma : R; mb : R; mc : R; md : R; me : R; mf : R }.

Definition identity : Affine := mkAffine 1 0 0 1 0 0.

(** [compose M N] first applies [N], then [M]. *)
Definition compose (M N : Affine) : Affine :=
  mkAffine (ma M * ma N + mc M * mb N) (mb M * ma N + md M * mb N)
           (ma M * mc N + mc M * md N) (mb M * mc N + md M * md N)
           (ma M * me N + mc M * mf N + me M)
           (mb M * me N + md M * mf N + mf M).

Definition apply (M : Affine) (p : R * R) : R * R :=
  (ma M * fst p + mc M * snd p + me M, mb M * fst p + md M * snd p + mf M).

Definition translation (tx ty : R) : Affine := mkAffine 1 0 0 1 tx ty.

Definition rotation (angle : R) : Affine :=
  mkAffine (cos angle) (sin angle) (- sin angle) (cos angle) 0 0.

(** The [filter] attribute of a context: none, or the
    brightness/contrast/saturate percentages of the template string. *)
Inductive Filter :=
| FilterNone
| FilterBCS (brightness contrast saturate : R).

(** A decoded image with its natural size. *)
Record Image := mkImage { img_width : Z; img_height : Z }.

(** What a surface holds: the painting operations it received since it
    was last reset, oldest first.  A drawing records its source, the
    filter and transform in force, the source rectangle and the
    destination rectangle. *)
Inductive PaintOp : Type :=
| DrawImageOp (src : Source) (flt : Filter) (ctm : Affine)
              (sx sy sw sh dx dy dw dh : R)
| ClearRectOp (ctm : Affine) (x y w h : R)
with Source : Type :=
| ImageSource (img : Image)
| CanvasSource (width height : Z) (content : list PaintOp).

Record Canvas := mkCanvas {
  width : Z;
  height : Z;
  filter : Filter;
  transform : Affine;
  bitmap : list PaintOp
}.

(** [document.createElement('canvas')]: 300 x 150, blank. *)
Definition createCanvas : Canvas := mkCanvas 300 150 FilterNone identity [].

(** Setting a dimension clears the bitmap and resets the context state. *)
Definition set_width (v : R) (c : Canvas) : Canvas :=
  mkCanvas (Js.to_dimension 300 v) (height c) FilterNone identity [].

Definition set_height (v : R) (c : Canvas) : Canvas :=
  mkCanvas (width c) (Js.to_dimension 150 v) FilterNone identity [].

Definition set_filter (f : Filter) (c : Canvas) : Canvas :=
  mkCanvas (width c) (height c) f (transform c) (bitmap c).

Definition translate (tx ty : R) (c : Canvas) : Canvas :=
  mkCanvas (width c) (height c) (filter c)
           (compose (transform c) (translation tx ty)) (bitmap c).

Definition rotate (angle : R) (c : Canvas) : Canvas :=
  mkCanvas (width c) (height c) (filter c)
           (compose (transform c) (rotation angle)) (bitmap c).

Definition paint (op : PaintOp) (c : Canvas) : Canvas :=
  mkCanvas (width c) (height c) (filter c) (transform c) (bitmap c ++ [op]).

Definition source_width (s : Source) : R :=
  match s with
  | ImageSource i => IZR (img_width i)
  | CanvasSource w _ _ => IZR w
  end.

Definition source_height (s : Source) : R :=
  match s with
  | ImageSource i => IZR (img_height i)
  | CanvasSource _ h _ => IZR h
  end.

Definition as_source (c : Canvas) : Source :=
  CanvasSource (width c) (height c) (bitmap c).

(** [ctx.drawImage(src, dx, dy)]: the whole source at its own size. *)
Definition drawImage3 (src : Source) (dx dy : R) (c : Canvas) : Canvas :=
  paint (DrawImageOp src (filter c) (transform c)
           0 0 (source_width src) (source_height src)
           dx dy (source_width src) (source_height src)) c.

(** [ctx.drawImage(src, sx, sy, sw, sh, dx, dy, dw, dh)]. *)
Definition drawImage9 (src : Source) (sx sy sw sh dx dy dw dh : R)
           (c : Canvas) : Canvas :=
  paint (DrawImageOp src (filter c) (transform c) sx sy sw sh dx dy dw dh) c.

Definition clearRect (x y w h : R) (c : Canvas) : Canvas :=
  paint (ClearRectOp (transform c) x y w h) c.

(** Where the drawing puts the point [(u, v)] of the source rectangle
    (measured from the corner of the source rectangle). *)
Definition place (ctm : Affine) (sw sh dx dy dw dh : R) (u v : R) : R * R :=
  apply ctm (dx + u * dw / sw, dy + v * dh / sh).

(** A point lies on the surface. *)
Definition on_surface (c : Canvas) (p : R * R) : Prop :=
  0 <= fst p <= IZR (width c) /\ 0 <= snd p <= IZR (height c).

End Canvas2D.

(** ** components/ImageEditor *)

(** The crop rectangle, in percent of the displayed image. *)
Module Rect.
Record t := mk { x : R; y : R; w : R; h : R }.
End Rect.

(** The two fields of a mouse event that the handlers read. *)
Module MouseEvent.
Record t := mk { clientX : R; clientY : R }.
End MouseEvent.

(** The two fields of [getBoundingClientRect()] that the handlers read. *)
Module DOMRect.
Record t := mk { width : R; height : R }.
End DOMRect.

Module ImageEditor.

Import Canvas2D.

(** The [type] of a drag: the rectangle body or one of the four corners. *)
Inductive DragType := move | nw | ne | sw | se.

(** What [dragRef.current] holds during a gesture. *)
Record DragSnapshot := mkDrag {
  startX : R;
  startY : R;
  startRect : Rect.t;
  type : option DragType
}.

(** The component state: the [useState] cells and [dragRef]. *)
Record EditorState := mkState {
  brightness : R;
  contrast : R;
  saturation : R;
  rotation : R;
  isCropping : bool;
  cropRect : Rect.t;
  dragRef : option DragSnapshot
}.

Definition initialState : EditorState :=
  mkState 100 100 100 0 false (Rect.mk 10 10 80 80) None.

(** *** State setters *)

Definition setBrightness (v : R) (st : EditorState) : EditorState :=
  mkState v (contrast st) (saturation st) (rotation st) (isCropping st)
          (cropRect st) (dragRef st).

Definition setContrast (v : R) (st : EditorState) : EditorState :=
  mkState (brightness st) v (saturation st) (rotation st) (isCropping st)
          (cropRect st) (dragRef st).

Definition setSaturation (v : R) (st : EditorState) : EditorState :=
  mkState (brightness st) (contrast st) v (rotation st) (isCropping st)
          (cropRect st) (dragRef st).

Definition setRotation (f : R -> R) (st : EditorState) : EditorState :=
  mkState (brightness st) (contrast st) (saturation st) (f (rotation st))
          (isCropping st) (cropRect st) (dragRef st).

Definition setIsCropping (b : bool) (st : EditorState) : EditorState :=
  mkState (brightness st) (contrast st) (saturation st) (rotation st) b
          (cropRect st) (dragRef st).

Definition setCropRect (r : Rect.t) (st : EditorState) : EditorState :=
  mkState (brightness st) (contrast st) (saturation st) (rotation st)
          (isCropping st) r (dragRef st).

Definition setDragRef (d : option DragSnapshot) (st : EditorState)
  : EditorState :=
  mkState (brightness st) (contrast st) (saturation st) (rotation st)
          (isCropping st) (cropRect st) d.

(** *** Pointer handlers *)

(** [handleMouseDown]: snapshot of the pointer position and of a copy of
    the current rectangle. *)
Definition handleMouseDown (e : MouseEvent.t) (ty : DragType)
           (st : EditorState) : EditorState :=
  setDragRef
    (Some (mkDrag (MouseEvent.clientX e) (MouseEvent.clientY e)
                  (cropRect st) (Some ty)))
    st.

(** The rectangle that a pointer-move computes from the snapshot and the
    delta in percent. *)
Definition draggedRect (ty : option DragType) (startRect : Rect.t)
           (deltaX deltaY : R) : Rect.t :=
  let newRect := startRect in
  match ty with
  | Some move =>
      let nx := Rmax 0 (Rmin (100 - Rect.w newRect) (Rect.x startRect + deltaX)) in
      let newRect := Rect.mk nx (Rect.y newRect) (Rect.w newRect) (Rect.h newRect) in
      let ny := Rmax 0 (Rmin (100 - Rect.h newRect) (Rect.y startRect + deltaY)) in
      Rect.mk (Rect.x newRect) ny (Rect.w newRect) (Rect.h newRect)
  | Some se =>
      let nw := Rmax 10 (Rmin (100 - Rect.x startRect) (Rect.w startRect + deltaX)) in
      let newRect := Rect.mk (Rect.x newRect) (Rect.y newRect) nw (Rect.h newRect) in
      let nh := Rmax 10 (Rmin (100 - Rect.y startRect) (Rect.h startRect + deltaY)) in
      Rect.mk (Rect.x newRect) (Rect.y newRect) (Rect.w newRect) nh
  | _ => newRect
  end.

(** [handleMouseMove]: nothing without an active drag or a mounted
    container; otherwise the delta in percent of the container box, applied
    to the snapshot. *)
Definition handleMouseMove (e : MouseEvent.t) (containerRef : option DOMRect.t)
           (st : EditorState) : EditorState :=
  match dragRef st, containerRef with
  | Some d, Some containerRect =>
      let deltaX :=
        (MouseEvent.clientX e - startX d) / DOMRect.width containerRect * 100 in
      let deltaY :=
        (MouseEvent.clientY e - startY d) / DOMRect.height containerRect * 100 in
      setCropRect (draggedRect (type d) (startRect d) deltaX deltaY) st
  | _, _ => st
  end.

Definition handleMouseUp (st : EditorState) : EditorState :=
  setDragRef None st.

(** The window listeners exist only while crop mode is on. *)
Definition window_mousemove (e : MouseEvent.t) (containerRef : option DOMRect.t)
           (st : EditorState) : EditorState :=
  if isCropping st then handleMouseMove e containerRef st else st.

Definition window_mouseup (st : EditorState) : EditorState :=
  if isCropping st then handleMouseUp st else st.

(** *** Buttons *)

Definition toggleCrop (st : EditorState) : EditorState :=
  setIsCropping (negb (isCropping st)) st.

Definition rotateLeft (st : EditorState) : EditorState :=
  setRotation (fun r => r - 90) st.

Definition rotateRight (st : EditorState) : EditorState :=
  setRotation (fun r => r + 90) st.

(** The click handler of the reset button: six setters in a row. *)
Definition reset (st : EditorState) : EditorState :=
  setCropRect (Rect.mk 10 10 80 80)
    (setIsCropping false
      (setRotation (fun _ => 0)
        (setSaturation 100
          (setContrast 100
            (setBrightness 100 st))))).

(** *** What is rendered over the image *)

Record Overlay := mkOverlay {
  cropOverlay : option Rect.t;     (* left, top, width, height in percent *)
  rotationNotice : bool
}.

Definition rotation_is_zero (st : EditorState) : bool :=
  if Req_dec_T (rotation st) 0 then true else false.

Definition render (st : EditorState) : Overlay :=
  mkOverlay
    (if isCropping st && rotation_is_zero st then Some (cropRect st) else None)
    (isCropping st && negb (rotation_is_zero st)).

(** *** Saving *)

(** What the browser provides to [handleSave]: whether each of the two
    canvases yields a 2D context, and the encoder behind [toDataURL]. *)
Record Platform := mkPlatform {
  getContext : bool;
  tempGetContext : bool;
  toDataURL : Canvas -> string -> R -> string
}.

(** Step 1 and 2 of the load callback: size the canvas to the rotated
    bounds, then draw with the filter and the rotation. *)
Definition transformStep (st : EditorState) (img : Image) (canvas : Canvas)
  : R * R * Canvas :=
  let rad := rotation st * PI / 180 in
  let sin_ := Rabs (sin rad) in
  let cos_ := Rabs (cos rad) in
  let newWidth := IZR (img_width img) * cos_ + IZR (img_height img) * sin_ in
  let newHeight := IZR (img_width img) * sin_ + IZR (img_height img) * cos_ in
  let canvas := set_width newWidth canvas in
  let canvas := set_height newHeight canvas in
  let canvas :=
    set_filter (FilterBCS (brightness st) (contrast st) (saturation st)) canvas in
  let canvas := translate (newWidth / 2) (newHeight / 2) canvas in
  let canvas := rotate rad canvas in
  let canvas :=
    drawImage3 (ImageSource img)
               (- IZR (img_width img) / 2) (- IZR (img_height img) / 2) canvas in
  (newWidth, newHeight, canvas).

(** Step 3: crop if enabled. *)
Definition cropStep (tempCtx : bool) (st : EditorState)
           (newWidth newHeight : R) (canvas : Canvas) : Canvas :=
  if isCropping st then
    let tempCanvas := createCanvas in
    let tempCanvas := set_width newWidth tempCanvas in
    let tempCanvas := set_height newHeight tempCanvas in
    if tempCtx then
      let tempCanvas := drawImage3 (as_source canvas) 0 0 tempCanvas in
      let cx := Rect.x (cropRect st) / 100 * newWidth in
      let cy := Rect.y (cropRect st) / 100 * newHeight in
      let cw := Rect.w (cropRect st) / 100 * newWidth in
      let ch := Rect.h (cropRect st) / 100 * newHeight in
      let canvas := set_width cw canvas in
      let canvas := set_height ch canvas in
      let canvas := clearRect 0 0 cw ch canvas in
      drawImage9 (as_source tempCanvas) cx cy cw ch 0 0 cw ch canvas
    else canvas
  else canvas.

(** Step 4: the text after the first comma of the data URL
    ([undefined] when there is none). *)
Definition exportStep (toDataURL : Canvas -> string -> R -> string)
           (canvas : Canvas) : option string :=
  nth_error (Js.split ","%char (toDataURL canvas "image/jpeg"%string (9 / 10)))
            1%nat.

(** The surface that is encoded. *)
Definition finalCanvas (tempCtx : bool) (st : EditorState) (img : Image)
  : Canvas :=
  let '(newWidth, newHeight, canvas) := transformStep st img createCanvas in
  cropStep tempCtx st newWidth newHeight canvas.

(** The outcome of the load callback of [handleSave]: nothing when there
    is no context, otherwise one call of [onSave]. *)
Inductive SaveOutcome :=
| NoSave
| OnSave (newBase64 : option string).

Definition handleSave (p : Platform) (st : EditorState) (img : Image)
  : SaveOutcome :=
  if getContext p then
    OnSave (exportStep (toDataURL p) (finalCanvas (tempGetContext p) st img))
  else NoSave.

(** *** The editor as a transition system *)

(** What the user can do.  A press reaches a handler only while the crop
    overlay is rendered; the handle stops the propagation of its press, so
    a press is on the body or on the handle, never both. *)
Inductive Event :=
| ClickCrop
| ClickRotateLeft
| ClickRotateRight
| SlideBrightness (v : R)
| SlideContrast (v : R)
| SlideSaturation (v : R)
| ClickReset
| PressBody (e : MouseEvent.t)
| PressHandle (e : MouseEvent.t)
| PointerMove (e : MouseEvent.t) (containerRect : DOMRect.t)
| PointerUp.

Definition step (st : EditorState) (ev : Event) : EditorState :=
  match ev with
  | ClickCrop => toggleCrop st
  | ClickRotateLeft => rotateLeft st
  | ClickRotateRight => rotateRight st
  | SlideBrightness v => setBrightness v st
  | SlideContrast v => setContrast v st
  | SlideSaturation v => setSaturation v st
  | ClickReset => reset st
  | PressBody e =>
      match cropOverlay (render st) with
      | Some _ => handleMouseDown e move st
      | None => st
      end
  | PressHandle e =>
      match cropOverlay (render st) with
      | Some _ => handleMouseDown e se st
      | None => st
      end
  | PointerMove e containerRect => window_mousemove e (Some containerRect) st
  | PointerUp => window_mouseup st
  end.

(** The container box of a pointer-move has a positive size. *)
Definition wellFormed (ev : Event) : Prop :=
  match ev with
  | PointerMove _ box => 0 < DOMRect.width box /\ 0 < DOMRect.height box
  | _ => True
  end.

Definition reachable (st : EditorState) : Prop :=
  exists evs : list Event,
    Forall wellFormed evs /\ st = fold_left step evs initialState.

(** A stand-in for the browser, used to run [handleSave] on concrete
    inputs: both contexts exist, and the encoder answers with a fixed
    JPEG data URL when asked for image/jpeg. *)
Definition standInPlatform : Platform :=
  mkPlatform true true
    (fun _ type _ =>
       if String.eqb type "image/jpeg"
       then "data:image/jpeg;base64,/9j/4AAQSkZJRg=="%string
       else "data:image/png;base64,iVBORw0KGgo="%string).

End ImageEditor.

(** ** views/ToolViews: the CSV export and the edit-save callback *)

Module ToolViews.

Record TableData := mkTable {
  headers : list string;
  rows : list (list string)
}.

(** What [saveFile] hands to the browser: the parts and type of the blob,
    and the download name. *)
Record Download := mkDownload {
  blobParts : list string;
  blobType : string;
  downloadName : string
}.

Definition saveFile (parts : list string) (type name : string) : Download :=
  mkDownload parts type name.

(** The line feed character of the source's ['\n']. *)
Definition LF : string := String "010"%char EmptyString.

(** The text that [exportTableToCSV] builds. *)
Definition csvContent (data : TableData) : string :=
  Js.join LF
    (Js.join ","%string (headers data)
       :: map (fun row => Js.join ","%string row) (rows data)).

(** [exportTableToCSV(data, title = 'Table')]. *)
Definition exportTableToCSV (data : TableData) (title : option string)
  : Download :=
  let title := match title with Some t => t | None => "Table"%string end in
  saveFile [csvContent data] "text/csv;charset=utf-8;"%string
           (title ++ ".csv")%string.

(** An opaque handle on the file the user picked. *)
Record File := mkFile { fileName : string; fileType : string }.

Record UploadedFile := mkUploaded {
  file : File;
  previewUrl : string;
  base64 : string;
  mimeType : string
}.

(** The state around the editor: the parent's file and the editing flag. *)
Record WrapperState := mkWrapper {
  currentFile : option UploadedFile;
  isEditing : bool
}.

(** [handleEditSave]: replace the payload and the preview of the file, if
    there is one, and leave the editor. *)
Definition handleEditSave (newBase64 : string) (ws : WrapperState)
  : WrapperState :=
  let updated :=
    match currentFile ws with
    | Some f =>
        Some (mkUploaded (file f)
                ("data:" ++ mimeType f ++ ";base64," ++ newBase64)%string
                newBase64
                (mimeType f))
    | None => None
    end in
  mkWrapper updated false.

(** The editor is mounted with [onSave = handleEditSave]; a save without a
    context leaves the wrapper as it is.  An [undefined] payload is outside
    the callback's type and is not modelled. *)
Definition editorSaved (outcome : ImageEditor.SaveOutcome) (ws : WrapperState)
  : option WrapperState :=
  match outcome with
  | ImageEditor.NoSave => Some ws
  | ImageEditor.OnSave (Some newBase64) => Some (handleEditSave newBase64 ws)
  | ImageEditor.OnSave None => None
  end.

End ToolViews.

(** ** The structured-extraction service (two versions in the repository) *)

Module Service.

(** The exceptions that travel through the service. *)
Inductive Exn :=
| Error (message : string)          (* [new Error(message)] *)
| SyntaxError (message : string)    (* thrown by [JSON.parse] *)
| Rejection (reason : string).      (* a rejected request *)

Inductive Outcome (A : Type) :=
| Return (a : A)
| Throw (e : Exn).
Arguments Return {A} a.
Arguments Throw {A} e.

(** One call of [console.error]: the label and the exception, if any. *)
Record LogEntry := mkLog { label : string; logged : option Exn }.

(** A computation: what it wrote to the console, and how it ended. *)
Definition M (A : Type) : Type := list LogEntry * Outcome A.

Definition ret {A} (a : A) : M A := ([], Return a).
Definition throw {A} (e : Exn) : M A := ([], Throw e).
Definition console_error (l : string) (e : option Exn) : M unit :=
  ([mkLog l e], Return tt).

Definition bind {A B} (m : M A) (k : A -> M B) : M B :=
  match m with
  | (l, Return a) => let '(l', r) := k a in (l ++ l', r)
  | (l, Throw e) => (l, Throw e)
  end.

Definition try_catch {A} (m : M A) (handler : Exn -> M A) : M A :=
  match m with
  | (l, Return a) => (l, Return a)
  | (l, Throw e) => let '(l', r) := handler e in (l ++ l', r)
  end.

Declare Scope service_scope.
Delimit Scope service_scope with service.
Notation "x <- m ;; k" := (bind m (fun x => k))
  (at level 61, m at next level, right associativity) : service_scope.
Notation "m ;;; k" := (bind m (fun _ => k))
  (at level 61, right associativity) : service_scope.

#[local] Unset Elimination Schemes.
Inductive Json :=
| JNull
| JBool (b : bool)
| JNumber (n : R)
| JString (s : string)
| JArray (items : list Json)
| JObject (members : list (string * Json)).
#[local] Set Elimination Schemes.

(** Where the API key may come from. *)
Record Env := mkEnv {
  process_env_API_KEY : option string;
  import_meta_env_VITE_API_KEY : option (option string)
    (* [None]: no [import.meta.env]; [Some k]: its [VITE_API_KEY] *)
}.

Inductive Schema := TableSchema | IDCardSchema.

Record Request := mkRequest {
  model : string;
  inlineData : string;
  inlineMimeType : string;
  instruction : string;
  responseSchema : option Schema
}.

Record Response := mkResponse { text : option string }.

(** A JavaScript string is falsy when it is undefined or empty. *)
Definition falsy (s : option string) : bool :=
  match s with
  | None => true
  | Some EmptyString => true
  | Some _ => false
  end.

Definition tableInstruction : string :=
  "Extract the table data from this image."%string.

Definition idCardInstruction : string :=
  "Analyze this ID card or document. Extract key information into a structured format. If a field is not found, leave it empty or omit."%string.

Section WithPlatform.

(** [JSON.parse]: a value, or the message of the [SyntaxError]. *)
Variable JSON_parse : string -> Json + string.

(** The external model behind [ai.models.generateContent]. *)
Variable generateContent : Request -> Outcome Response.

Local Open Scope service_scope.

Definition parse (s : string) : M Json :=
  match JSON_parse s with
  | inl v => ret v
  | inr m => throw (SyntaxError m)
  end.

Definition await {A} (o : Outcome A) : M A := ([], o).

(** *** The version with a parse-specific handler

    This is the copy of the service that follows the application shell
    and the type declarations in the sources. *)

Definition getAiClient_v1 (env : Env) : M string :=
  if falsy (process_env_API_KEY env) then
    throw (Error "API Key is missing. Please check your environment configuration.")
  else ret (Js.or_else (process_env_API_KEY env) EmptyString).

Definition extractTableData_v1 (env : Env) (base64Data mimeType : string)
  : M Json :=
  ai <- getAiClient_v1 env ;;
  response <- await (generateContent
    (mkRequest "gemini-2.5-flash" base64Data mimeType tableInstruction
               (Some TableSchema))) ;;
  try_catch
    (parse (Js.or_else (text response) "{}"))
    (fun e =>
       console_error "Failed to parse table JSON" (Some e) ;;;
       throw (Error "Could not extract table data.")).

Definition scanIDCard_v1 (env : Env) (base64Data mimeType : string)
  : M Json :=
  ai <- getAiClient_v1 env ;;
  response <- await (generateContent
    (mkRequest "gemini-2.5-flash" base64Data mimeType idCardInstruction
               (Some IDCardSchema))) ;;
  try_catch
    (parse (Js.or_else (text response) "{}"))
    (fun e =>
       console_error "Failed to parse ID Card JSON" (Some e) ;;;
       throw (Error "Could not scan ID card.")).

(** *** The version that wraps the whole body and rethrows

    This is the stand-alone copy of the service, with the fallback on
    [import.meta.env] for the key. *)

Definition getAiClient_v2 (env : Env) : M string :=
  let apiKey := process_env_API_KEY env in
  let apiKey :=
    if falsy apiKey then
      match import_meta_env_VITE_API_KEY env with
      | Some k => k
      | None => apiKey
      end
    else apiKey in
  if falsy apiKey then
    console_error "Critical: API Key is missing. Checked process.env.API_KEY and import.meta.env.VITE_API_KEY." None ;;;
    throw (Error "API Key is missing. Please check your .env file or Vercel environment variables.")
  else ret (Js.or_else apiKey EmptyString).

Definition extractTableData_v2 (env : Env) (base64Data mimeType : string)
  : M Json :=
  try_catch
    (ai <- getAiClient_v2 env ;;
     response <- await (generateContent
       (mkRequest "gemini-2.5-flash" base64Data mimeType tableInstruction
                  (Some TableSchema))) ;;
     parse (Js.or_else (text response) "{}"))
    (fun e =>
       console_error "Gemini API Error (extractTableData):" (Some e) ;;;
       throw e).

Definition scanIDCard_v2 (env : Env) (base64Data mimeType : string)
  : M Json :=
  try_catch
    (ai <- getAiClient_v2 env ;;
     response <- await (generateContent
       (mkRequest "gemini-2.5-flash" base64Data mimeType idCardInstruction
                  (Some IDCardSchema))) ;;
     parse (Js.or_else (text response) "{}"))
    (fun e =>
       console_error "Gemini API Error (scanIDCard):" (Some e) ;;;
       throw e).

End WithPlatform.

(** A stand-in for [JSON.parse] that knows the empty object only; it is
    used to run the service on concrete responses. *)
Definition parse_empty_object_only (s : string) : Json + string :=
  if String.eqb s "{}" then inl (JObject [])
  else inr "Unexpected token"%string.

End Service.

(** ** Specification-side notions *)

Module Spec.

(** The invariant of a crop rectangle. *)
Definition cropInvariant (r : Rect.t) : Prop :=
  0 <= Rect.x r /\ 0 <= Rect.y r /\
  Rect.x r + Rect.w r <= 100 /\ Rect.y r + Rect.h r <= 100 /\
  10 <= Rect.w r /\ 10 <= Rect.h r.

(** What holds of every state the editor can be in: the rectangle and the
    snapshot of an active drag keep the invariant, and the rotation is a
    whole number of quarter turns. *)
Definition editorInvariant (st : ImageEditor.EditorState) : Prop :=
  cropInvariant (ImageEditor.cropRect st) /\
  (forall d, ImageEditor.dragRef st = Some d ->
             cropInvariant (ImageEditor.startRect d)) /\
  exists k : Z, ImageEditor.rotation st = 90 * IZR k.

(** [clamp lo hi v]: [v] brought back into the interval from [lo] to [hi]. *)
Definition clamp (lo hi v : R) : R :=
  if Rlt_dec v lo then lo else if Rlt_dec hi v then hi else v.

(** The pointer delta in percent of a rendered length. *)
Definition percentDelta (pointerDelta rendered : R) : R :=
  pointerDelta / rendered * 100.

(** Everything a surface was asked to draw lies on the surface: nothing
    is clipped. *)
Definition drawnWithin (c : Canvas2D.Canvas) : Prop :=
  Forall
    (fun op =>
       match op with
       | Canvas2D.DrawImageOp _ _ ctm _ _ sw sh dx dy dw dh =>
           forall u v : R,
             0 <= u <= sw -> 0 <= v <= sh ->
             Canvas2D.on_surface c (Canvas2D.place ctm sw sh dx dy dw dh u v)
       | Canvas2D.ClearRectOp _ _ _ _ _ => True
       end)
    (Canvas2D.bitmap c).

(** Rotation by [angle] about the origin followed by the translation that
    brings the origin to the centre of a [W] by [H] box. *)
Definition centredRotation (W H angle : R) : Canvas2D.Affine :=
  Canvas2D.mkAffine (cos angle) (sin angle) (- sin angle) (cos angle)
                    (W / 2) (H / 2).

(** The transform step as the specification states it: the destination
    has exactly the size of the rotated bounding box, it holds one drawing
    of the filtered source, centred, rotated and offset by half the source
    size, and nothing of it is clipped. *)
Definition transformClaim (st : ImageEditor.EditorState)
           (img : Canvas2D.Image) : Prop :=
  let theta := ImageEditor.rotation st * PI / 180 in
  let w := IZR (Canvas2D.img_width img) in
  let h := IZR (Canvas2D.img_height img) in
  let W := w * Rabs (cos theta) + h * Rabs (sin theta) in
  let H := w * Rabs (sin theta) + h * Rabs (cos theta) in
  let c := snd (ImageEditor.transformStep st img Canvas2D.createCanvas) in
  IZR (Canvas2D.width c) = W /\
  IZR (Canvas2D.height c) = H /\
  Canvas2D.bitmap c =
    [Canvas2D.DrawImageOp (Canvas2D.ImageSource img)
       (Canvas2D.FilterBCS (ImageEditor.brightness st) (ImageEditor.contrast st)
                           (ImageEditor.saturation st))
       (centredRotation W H theta)
       0 0 w h (- w / 2) (- h / 2) w h] /\
  drawnWithin c.

(** A fresh surface sized for [newWidth] by [newHeight] onto which the
    transformed surface was drawn once, at the origin, at its own size. *)
Definition copyOf (transformed : Canvas2D.Canvas) (newWidth newHeight : R)
  : Canvas2D.Source :=
  Canvas2D.CanvasSource
    (Js.to_dimension 300 newWidth) (Js.to_dimension 150 newHeight)
    [Canvas2D.DrawImageOp (Canvas2D.as_source transformed)
       Canvas2D.FilterNone Canvas2D.identity
       0 0 (IZR (Canvas2D.width transformed)) (IZR (Canvas2D.height transformed))
       0 0 (IZR (Canvas2D.width transformed)) (IZR (Canvas2D.height transformed))].


(** The CSV text as the specification words it: the header line, then one
    line per row, a comma between the cells of a line, a line feed between
    lines, and every cell copied as it is. *)
Fixpoint csvLine (cells : list string) : string :=
  match cells with
  | [] => EmptyString
  | [c] => c
  | c :: more => (c ++ "," ++ csvLine more)%string
  end.

Fixpoint csvLines (lines : list (list string)) : string :=
  match lines with
  | [] => EmptyString
  | [l] => csvLine l
  | l :: more => (csvLine l ++ ToolViews.LF ++ csvLines more)%string
  end.

Definition csvText (data : ToolViews.TableData) : string :=
  csvLines (ToolViews.headers data :: ToolViews.rows data).

End Spec.

(** ** components/ImageUploader: file intake *)

Module ImageUploader.

Import ToolViews.

(** What one intake leads to: an alert and no selection, a read that
    never completes, a selection, or a data URL without a comma, whose
    payload is [undefined] and outside the type of the record. *)
Inductive Intake :=
| Rejected (alertMessage : string)
| ReadFailed
| Selected (f : UploadedFile)
| PayloadUndefined.

(** [processFile]: only files whose type starts with image/ are read;
    the payload is the text after the first comma of the data URL.
    [readAsDataURL] is the browser's reader: the data URL of the file, or
    nothing when the read fails and [onload] never fires. *)
Definition processFile (readAsDataURL : File -> option string) (f : File)
  : Intake :=
  if negb (String.prefix "image/" (fileType f)) then
    Rejected "请选择图片文件"
  else
    match readAsDataURL f with
    | None => ReadFailed
    | Some result =>
        match nth_error (Js.split ","%char result) 1%nat with
        | Some base64 => Selected (mkUploaded f result base64 (fileType f))
        | None => PayloadUndefined
        end
    end.

(** [handleDrop] and [handleFileInput]: the first file of the list, if
    there is one. *)
Definition handleDrop (readAsDataURL : File -> option string)
           (files : list File) : option Intake :=
  match files with
  | f :: _ => Some (processFile readAsDataURL f)
  | [] => None
  end.

Definition handleFileInput (readAsDataURL : File -> option string)
           (files : list File) : option Intake :=
  match files with
  | f :: _ => Some (processFile readAsDataURL f)
  | [] => None
  end.

(** A stand-in for the browser's reader, used to run the intake on
    concrete files: a fixed payload under the type of the file. *)
Definition standInReader (f : File) : option string :=
  Some ("data:" ++ fileType f ++ ";base64," ++ "iVBORw0KGgo=")%string.

End ImageUploader.

(** ** The other operations of the service *)

Module ServiceOps.

Import Service.

(** The part of a response that the image operation reads. *)
Record InlineData := mkInline { data : option string }.
Record Part := mkPart { inlineData : option InlineData }.
Record Content := mkContent { parts : option (list Part) }.
Record Candidate := mkCandidate { content : option Content }.
Record ImageResponse := mkImageResponse {
  candidates : option (list Candidate)
}.

Definition documentInstruction : string :=
  "Transcribe the text in this image exactly as it appears. Preserve layout using Markdown where possible. Do not include introductory text."%string.

Definition handwritingInstruction : string :=
  "Transcribe the handwritten text in this image. Output only the transcribed text."%string.

Definition removalInstruction : string :=
  "Remove all handwritten text from this image. Keep printed text, forms, lines, and background intact. The result should look like a clean template."%string.

(** The two missing-key errors, and what the wrapping version logs before
    throwing its own. *)
Definition missingKey_v1 : Exn :=
  Error "API Key is missing. Please check your environment configuration.".

Definition missingKey_v2 : Exn :=
  Error "API Key is missing. Please check your .env file or Vercel environment variables.".

Definition criticalLog : LogEntry :=
  mkLog "Critical: API Key is missing. Checked process.env.API_KEY and import.meta.env.VITE_API_KEY." None.

(** [response.candidates?.[0]?.content?.parts || []]. *)
Definition firstCandidateParts (r : ImageResponse) : list Part :=
  match candidates r with
  | Some (c :: _) =>
      match content c with
      | Some ct =>
          match parts ct with
          | Some ps => ps
          | None => []
          end
      | None => []
      end
  | _ => []
  end.

(** The loop over the parts: the data of the first part that has inline
    data with a non-empty payload. *)
Fixpoint firstInlineData (ps : list Part) : option string :=
  match ps with
  | [] => None
  | p :: rest =>
      match inlineData p with
      | Some (mkInline (Some d)) =>
          if falsy (Some d) then firstInlineData rest else Some d
      | _ => firstInlineData rest
      end
  end.

Section WithModel.

(** The external model, as the text operations and as the image
    operation see its responses. *)
Variable generateContent : Request -> Outcome Response.
Variable generateImage : Request -> Outcome ImageResponse.

Local Open Scope service_scope.

(** *** The version without handlers around the request *)

Definition extractDocumentText_v1 (env : Env) (base64Data mimeType : string)
  : M string :=
  ai <- getAiClient_v1 env ;;
  response <- await (generateContent
    (mkRequest "gemini-2.5-flash" base64Data mimeType documentInstruction
               None)) ;;
  ret (Js.or_else (text response) EmptyString).

Definition extractHandwriting_v1 (env : Env) (base64Data mimeType : string)
  : M string :=
  ai <- getAiClient_v1 env ;;
  response <- await (generateContent
    (mkRequest "gemini-2.5-flash" base64Data mimeType handwritingInstruction
               None)) ;;
  ret (Js.or_else (text response) EmptyString).

Definition removeHandwritingFromImage_v1 (env : Env)
           (base64Data mimeType : string) : M string :=
  ai <- getAiClient_v1 env ;;
  response <- await (generateImage
    (mkRequest "gemini-2.5-flash-image" base64Data mimeType removalInstruction
               None)) ;;
  match firstInlineData (firstCandidateParts response) with
  | Some d => ret d
  | None => throw (Error "No image generated.")
  end.

(** *** The version that wraps each body and rethrows *)

Definition extractDocumentText_v2 (env : Env) (base64Data mimeType : string)
  : M string :=
  try_catch
    (ai <- getAiClient_v2 env ;;
     response <- await (generateContent
       (mkRequest "gemini-2.5-flash" base64Data mimeType documentInstruction
                  None)) ;;
     ret (Js.or_else (text response) EmptyString))
    (fun e =>
       console_error "Gemini API Error (extractDocumentText):" (Some e) ;;;
       throw e).

Definition extractHandwriting_v2 (env : Env) (base64Data mimeType : string)
  : M string :=
  try_catch
    (ai <- getAiClient_v2 env ;;
     response <- await (generateContent
       (mkRequest "gemini-2.5-flash" base64Data mimeType handwritingInstruction
                  None)) ;;
     ret (Js.or_else (text response) EmptyString))
    (fun e =>
       console_error "Gemini API Error (extractHandwriting):" (Some e) ;;;
       throw e).

Definition removeHandwritingFromImage_v2 (env : Env)
           (base64Data mimeType : string) : M string :=
  try_catch
    (ai <- getAiClient_v2 env ;;
     response <- await (generateImage
       (mkRequest "gemini-2.5-flash-image" base64Data mimeType
                  removalInstruction None)) ;;
     match firstInlineData (firstCandidateParts response) with
     | Some d => ret d
     | None => throw (Error "No image generated.")
     end)
    (fun e =>
       console_error "Gemini API Error (removeHandwritingFromImage):" (Some e) ;;;
       throw e).

End WithModel.

End ServiceOps.

(** ** The build configuration: which key is injected *)

Module ViteConfig.

(** The six places the configuration looks at, in its order. *)
Record KeySources := mkSources {
  env_API_KEY : option string;
  process_API_KEY : option string;
  env_VITE_API_KEY : option string;
  process_VITE_API_KEY : option string;
  env_GOOGLE_API_KEY : option string;
  process_GOOGLE_API_KEY : option string
}.

(** [a || b] where [b] may be undefined as well. *)
Definition or_undefined (a b : option string) : option string :=
  if Service.falsy a then b else a.

(** The chain of [||], which groups to the left, that ends in the string
    literal of the source.  The literal is a credential and is not
    reproduced: it is a parameter, and all that matters of it is that it
    is not empty. *)
Definition apiKey (literal : string) (s : KeySources) : string :=
  Js.or_else
    (or_undefined
      (or_undefined
        (or_undefined
          (or_undefined
            (or_undefined (env_API_KEY s) (process_API_KEY s))
            (env_VITE_API_KEY s))
          (process_VITE_API_KEY s))
        (env_GOOGLE_API_KEY s))
      (process_GOOGLE_API_KEY s))
    literal.

(** What the service finds at run time in a build made with this
    configuration: [process.env.API_KEY] is replaced by the chosen key. *)
Definition builtEnv (literal : string) (s : KeySources)
           (importMeta : option (option string)) : Service.Env :=
  Service.mkEnv (Some (apiKey literal s)) importMeta.

End ViteConfig.

(** ** views/ToolViews: the four tool views *)

Module Views.

Import ToolViews.

(** [ProcessingState.result]: text (or a data URL), or parsed JSON. *)
Inductive ResultValue :=
| TextResult (s : string)
| JsonResult (j : Service.Json).

Record ProcessingState := mkProcessing {
  isLoading : bool;
  error : option string;
  result : option ResultValue
}.

Definition idle : ProcessingState := mkProcessing false None None.
Definition loading : ProcessingState := mkProcessing true None None.

(** The state of a view: its file and its processing state. *)
Record ViewState := mkView {
  file : option UploadedFile;
  state : ProcessingState
}.

(** The [setFile] that every view passes to the wrapper: it stores the
    file and resets the processing state. *)
Definition setFile (f : option UploadedFile) (vs : ViewState) : ViewState :=
  mkView f idle.

(** [handleEditSave] of the wrapper, with the [setFile] of the views. *)
Definition wrapperEditSave (newBase64 : string) (vs : ViewState)
           (editing : bool) : ViewState * bool :=
  (match file vs with
   | Some f =>
       setFile
         (Some (mkUploaded (ToolViews.file f)
                  ("data:" ++ mimeType f ++ ";base64," ++ newBase64)%string
                  newBase64
                  (mimeType f)))
         vs
   | None => vs
   end, false).

(** [err.message]; the reason of a rejected request is its message. *)
Definition message (e : Service.Exn) : string :=
  match e with
  | Service.Error m => m
  | Service.SyntaxError m => m
  | Service.Rejection r => r
  end.

(** The pattern shared by the four [handleProcess]: nothing without a
    file; otherwise the loading state, the call, and the final state, with
    the exception logged and its message, or the fallback when it is
    empty, as the error.  The result is what the console received and the
    states that were set, in order. *)
Definition process {A : Type} (call : string -> string -> Service.M A)
           (wrap : A -> ResultValue) (fallback : string) (vs : ViewState)
  : list Service.LogEntry * list ProcessingState :=
  match file vs with
  | None => ([], [])
  | Some f =>
      match call (base64 f) (mimeType f) with
      | (l, Service.Return a) =>
          (l, [loading; mkProcessing false None (Some (wrap a))])
      | (l, Service.Throw e) =>
          ((l ++ [Service.mkLog EmptyString (Some e)])%list,
           [loading;
            mkProcessing false (Some (Js.or_else (Some (message e)) fallback))
                         None])
      end
  end.

(** The processing state once the states of a run are applied. *)
Definition after (run : list Service.LogEntry * list ProcessingState)
           (vs : ViewState) : ProcessingState :=
  last (snd run) (state vs).

Definition ConverterView_handleProcess
           (extractDocumentText : string -> string -> Service.M string) :=
  process extractDocumentText TextResult "文档转换失败。".

Definition TableExtractorView_handleProcess
           (extractTableData : string -> string -> Service.M Service.Json) :=
  process extractTableData JsonResult "表格提取失败。".

Inductive ScannerMode := IdMode | OcrMode.

Definition ScannerView_handleProcess (mode : ScannerMode)
           (scanIDCard : string -> string -> Service.M Service.Json)
           (extractHandwriting : string -> string -> Service.M string) :=
  match mode with
  | IdMode => process scanIDCard JsonResult "扫描识别失败。"
  | OcrMode => process extractHandwriting TextResult "扫描识别失败。"
  end.

Definition HandwritingRemoverView_handleProcess
           (removeHandwritingFromImage : string -> string -> Service.M string) :=
  process removeHandwritingFromImage
          (fun base64Image =>
             TextResult ("data:image/png;base64," ++ base64Image)%string)
          "去除手写失败，请重试。".

(** *** What is rendered *)

(** Truthiness of a parsed JSON value. *)
Definition jsonTruthy (j : Service.Json) : bool :=
  match j with
  | Service.JNull => false
  | Service.JBool b => b
  | Service.JNumber n => if Req_dec_T n 0 then false else true
  | Service.JString s => negb (Service.falsy (Some s))
  | Service.JArray _ => true
  | Service.JObject _ => true
  end.

Definition truthy (r : ResultValue) : bool :=
  match r with
  | TextResult s => negb (Service.falsy (Some s))
  | JsonResult j => jsonTruthy j
  end.

(** [state.result && ...]: the result card is rendered. *)
Definition resultShown (st : ProcessingState) : bool :=
  match result st with
  | Some r => truthy r
  | None => false
  end.

(** [state.error && ...]: the alert is rendered. *)
Definition errorShown (st : ProcessingState) : bool :=
  negb (Service.falsy (error st)).

(** The edit and process buttons of the wrapper: [file && !isLoading]. *)
Definition actionsShown (vs : ViewState) : bool :=
  match file vs with
  | Some _ => negb (isLoading (state vs))
  | None => false
  end.

(** Property access on a parsed value: the member of an object (members
    have distinct names), [undefined] on anything else. *)
Fixpoint member (name : string) (members : list (string * Service.Json))
  : option Service.Json :=
  match members with
  | [] => None
  | (k, v) :: rest => if String.eqb k name then Some v else member name rest
  end.

Definition property (name : string) (r : ResultValue) : option Service.Json :=
  match r with
  | JsonResult (Service.JObject ms) => member name ms
  | _ => None
  end.

(** What rendering a card gives: its content, nothing, or a [TypeError]
    thrown while rendering. *)
Inductive Rendered (A : Type) :=
| Shown (a : A)
| Hidden
| RenderThrows.
Arguments Shown {A} a.
Arguments Hidden {A}.
Arguments RenderThrows {A}.

(** [x.map(...)] on a property: only an array has [map]. *)
Definition asArray (v : option Service.Json) : option (list Service.Json) :=
  match v with
  | Some (Service.JArray items) => Some items
  | _ => None
  end.

(** Each row of the body is mapped in turn: [row.map(...)]. *)
Fixpoint bodyRows (rows : list Service.Json)
  : option (list (list Service.Json)) :=
  match rows with
  | [] => Some []
  | r :: rest =>
      match asArray (Some r), bodyRows rest with
      | Some cells, Some more => Some (cells :: more)
      | _, _ => None
      end
  end.

(** The result card of the table view: the header cells and the body
    cells, as the values handed to the table. *)
Definition tableCard (st : ProcessingState)
  : Rendered (list Service.Json * list (list Service.Json)) :=
  match result st with
  | None => Hidden
  | Some r =>
      if truthy r then
        match asArray (property "headers" r) with
        | None => RenderThrows
        | Some hs =>
            match asArray (property "rows" r) with
            | None => RenderThrows
            | Some rs =>
                match bodyRows rs with
                | None => RenderThrows
                | Some body => Shown (hs, body)
                end
            end
        end
      else Hidden
  end.

End Views.

(** ** More specification-side notions *)

Module SpecMore.

(** The preview of a file reference is the data URL of its payload under
    its MIME type. *)
Definition wellFormedUpload (f : ToolViews.UploadedFile) : Prop :=
  ToolViews.previewUrl f
  = ("data:" ++ ToolViews.mimeType f ++ ";base64," ++ ToolViews.base64 f)%string.

(** The first non-empty string of a list of possibly undefined strings. *)
Fixpoint firstNonEmpty (l : list (option string)) : option string :=
  match l with
  | [] => None
  | a :: rest => if Service.falsy a then firstNonEmpty rest else a
  end.

(** A [handleProcess] settles: without a file it sets no state and logs
    nothing; with a file it sets the loading state and then one final
    state, which is not loading and holds either a result and no error, or
    no result and an error that is shown. *)
Definition settles
           (handleProcess : Views.ViewState ->
                            list Service.LogEntry * list Views.ProcessingState)
  : Prop :=
  forall vs : Views.ViewState,
    (Views.file vs = None -> handleProcess vs = ([], [])) /\
    (Views.file vs <> None ->
     let final := Views.after (handleProcess vs) vs in
     snd (handleProcess vs) = [Views.loading; final] /\
     Views.isLoading final = false /\
     ((Views.error final = None /\ Views.result final <> None) \/
      (Views.result final = None /\ Views.errorShown final = true))).

(** A part of a response without a usable payload. *)
Definition noInlineData (p : ServiceOps.Part) : Prop :=
  forall d,
    ServiceOps.inlineData p = Some (ServiceOps.mkInline (Some d)) ->
    d = EmptyString.

(** No cell of a table holds the character. *)
Definition cellsAvoid (c : ascii) (lines : list (list string)) : Prop :=
  Forall (Forall (fun cell => Js.contains c cell = false)) lines.

End SpecMore.

(** ** Properties of the pointer-drag arithmetic *)

Section DragProperties.

Import ImageEditor Spec.

Ltac minmax :=
  unfold Rmax, Rmin, clamp in *;
  repeat match goal with
         | |- context [Rle_dec ?a ?b] => destruct (Rle_dec a b)
         | |- context [Rlt_dec ?a ?b] => destruct (Rlt_dec a b)
         | H : context [Rle_dec ?a ?b] |- _ => destruct (Rle_dec a b)
         end;
  try reflexivity; try lra.

Lemma max_min_is_clamp (lo hi v : R) :
  lo <= hi -> Rmax lo (Rmin hi v) = clamp lo hi v.
Proof. intros Hle. minmax. Qed.

Lemma max_min_bounds (lo hi v : R) :
  lo <= hi -> lo <= Rmax lo (Rmin hi v) <= hi.
Proof. intros Hle. minmax. Qed.

Lemma draggedRect_move (r : Rect.t) (dx dy : R) :
  cropInvariant r ->
  draggedRect (Some move) r dx dy =
  Rect.mk (clamp 0 (100 - Rect.w r) (Rect.x r + dx))
          (clamp 0 (100 - Rect.h r) (Rect.y r + dy))
          (Rect.w r) (Rect.h r).
Proof.
  intros (Hx & Hy & Hxw & Hyh & Hw & Hh).
  unfold draggedRect; cbn [Rect.x Rect.y Rect.w Rect.h].
  rewrite !max_min_is_clamp by lra. reflexivity.
Qed.

Lemma draggedRect_se (r : Rect.t) (dx dy : R) :
  cropInvariant r ->
  draggedRect (Some se) r dx dy =
  Rect.mk (Rect.x r) (Rect.y r)
          (clamp 10 (100 - Rect.x r) (Rect.w r + dx))
          (clamp 10 (100 - Rect.y r) (Rect.h r + dy)).
Proof.
  intros (Hx & Hy & Hxw & Hyh & Hw & Hh).
  unfold draggedRect; cbn [Rect.x Rect.y Rect.w Rect.h].
  rewrite !max_min_is_clamp by lra. reflexivity.
Qed.

(** Whatever the kind of drag and the delta, the computed rectangle keeps
    the invariant of the snapshot. *)
Lemma draggedRect_invariant (ty : option DragType) (r : Rect.t) (dx dy : R) :
  cropInvariant r -> cropInvariant (draggedRect ty r dx dy).
Proof.
  intros Hinv. pose proof Hinv as (Hx & Hy & Hxw & Hyh & Hw & Hh).
  destruct ty as [[ | | | | ] | ]; try exact Hinv.
  - unfold draggedRect, cropInvariant; cbn [Rect.x Rect.y Rect.w Rect.h].
    pose proof (max_min_bounds 0 (100 - Rect.w r) (Rect.x r + dx)).
    pose proof (max_min_bounds 0 (100 - Rect.h r) (Rect.y r + dy)).
    lra.
  - unfold draggedRect, cropInvariant; cbn [Rect.x Rect.y Rect.w Rect.h].
    pose proof (max_min_bounds 10 (100 - Rect.x r) (Rect.w r + dx)).
    pose proof (max_min_bounds 10 (100 - Rect.y r) (Rect.h r + dy)).
    lra.
Qed.

(** A pointer-move changes neither the snapshot nor anything but the
    rectangle. *)
Lemma handleMouseMove_dragRef e c st :
  dragRef (handleMouseMove e c st) = dragRef st.
Proof.
  unfold handleMouseMove. destruct (dragRef st) eqn:Hd, c; cbn; auto.
Qed.

Lemma moves_keep_dragRef (moves : list (MouseEvent.t * option DOMRect.t)) st :
  dragRef (fold_left (fun s m => handleMouseMove (fst m) (snd m) s) moves st)
  = dragRef st.
Proof.
  revert st. induction moves as [ | m moves IH]; intros st; cbn.
  - reflexivity.
  - rewrite IH. apply handleMouseMove_dragRef.
Qed.

Lemma handleMouseMove_active e box st d :
  dragRef st = Some d ->
  cropRect (handleMouseMove e (Some box) st) =
  draggedRect (type d) (startRect d)
    (percentDelta (MouseEvent.clientX e - startX d) (DOMRect.width box))
    (percentDelta (MouseEvent.clientY e - startY d) (DOMRect.height box)).
Proof.
  intros Hd. unfold handleMouseMove. rewrite Hd. reflexivity.
Qed.

(** C4. During a gesture that started with a press at [e0] of kind [ty]
    on a rectangle [r0], every pointer-move, whatever moves came before
    it, yields the rectangle obtained from [r0] itself and the delta,
    in percent of the container box, between the pointer and [e0]:
    for [move], x and y are clamped into [0, 100 - w] and [0, 100 - h]
    and the size is kept; for [se], w and h are clamped into
    [10, 100 - x] and [10, 100 - y] and the position is kept. *)
Theorem drag_update_from_snapshot :
  forall (st : EditorState) (e0 : MouseEvent.t) (ty : DragType)
         (earlier : list (MouseEvent.t * option DOMRect.t))
         (e : MouseEvent.t) (box : DOMRect.t),
    cropInvariant (cropRect st) ->
    0 < DOMRect.width box -> 0 < DOMRect.height box ->
    let r0 := cropRect st in
    let dx := percentDelta (MouseEvent.clientX e - MouseEvent.clientX e0)
                           (DOMRect.width box) in
    let dy := percentDelta (MouseEvent.clientY e - MouseEvent.clientY e0)
                           (DOMRect.height box) in
    let during :=
      fold_left (fun s m => handleMouseMove (fst m) (snd m) s) earlier
                (handleMouseDown e0 ty st) in
    (ty = move ->
     cropRect (handleMouseMove e (Some box) during) =
     Rect.mk (clamp 0 (100 - Rect.w r0) (Rect.x r0 + dx))
             (clamp 0 (100 - Rect.h r0) (Rect.y r0 + dy))
             (Rect.w r0) (Rect.h r0)) /\
    (ty = se ->
     cropRect (handleMouseMove e (Some box) during) =
     Rect.mk (Rect.x r0) (Rect.y r0)
             (clamp 10 (100 - Rect.x r0) (Rect.w r0 + dx))
             (clamp 10 (100 - Rect.y r0) (Rect.h r0 + dy))).
Proof.
  intros st e0 ty earlier e box Hinv Hw Hh r0 dx dy during.
  assert (Hd : dragRef during =
               Some (mkDrag (MouseEvent.clientX e0) (MouseEvent.clientY e0)
                            (cropRect st) (Some ty))).
  { unfold during. rewrite moves_keep_dragRef. reflexivity. }
  rewrite (handleMouseMove_active _ _ _ _ Hd); cbn [type startRect startX startY].
  split; intros ->.
  - apply draggedRect_move, Hinv.
  - apply draggedRect_se, Hinv.
Qed.

Lemma drag_update_from_snapshot_witness :
  cropRect (handleMouseMove (MouseEvent.mk 150 60) (Some (DOMRect.mk 500 400))
              (handleMouseMove (MouseEvent.mk 900 900) (Some (DOMRect.mk 500 400))
                 (handleMouseDown (MouseEvent.mk 100 100) se initialState))) =
  Rect.mk 10 10
    (clamp 10 (100 - 10) (80 + percentDelta (150 - 100) 500))
    (clamp 10 (100 - 10) (80 + percentDelta (60 - 100) 400)).
Proof.
  refine (proj2 (drag_update_from_snapshot initialState (MouseEvent.mk 100 100) se
            [(MouseEvent.mk 900 900, Some (DOMRect.mk 500 400))]
            (MouseEvent.mk 150 60) (DOMRect.mk 500 400) _ _ _) eq_refl).
  - unfold cropInvariant; cbn; lra.
  - cbn; lra.
  - cbn; lra.
Defined.

(** C5. A drag update keeps the invariant of the crop rectangle: from a
    snapshot rectangle within bounds and at least 10 by 10, a [move] or
    [se] update gives, for every delta in percent and so for every pointer
    position over a container box of positive size, a rectangle with
    0 <= x, 0 <= y, x + w <= 100, y + h <= 100, w >= 10 and h >= 10. *)
Theorem drag_update_preserves_invariant :
  forall r : Rect.t,
    cropInvariant r ->
    (forall dx dy : R,
        cropInvariant (draggedRect (Some move) r dx dy) /\
        cropInvariant (draggedRect (Some se) r dx dy)) /\
    (forall (st : EditorState) (d : DragSnapshot) (e : MouseEvent.t)
            (box : DOMRect.t),
        dragRef st = Some d -> startRect d = r ->
        type d = Some move \/ type d = Some se ->
        0 < DOMRect.width box -> 0 < DOMRect.height box ->
        cropInvariant (cropRect (handleMouseMove e (Some box) st))).
Proof.
  intros r Hinv. split.
  - intros dx dy. split; apply draggedRect_invariant, Hinv.
  - intros st d e box Hd Hr _ _ _.
    rewrite (handleMouseMove_active _ _ _ _ Hd), Hr.
    apply draggedRect_invariant, Hinv.
Qed.

Lemma drag_update_preserves_invariant_witness :
  cropInvariant (draggedRect (Some se) (Rect.mk 10 10 80 80) (-1000) (-1000)) /\
  cropInvariant (draggedRect (Some move) (Rect.mk 10 10 80 80) 1000 (-1000)).
Proof.
  assert (H : cropInvariant (Rect.mk 10 10 80 80))
    by (unfold cropInvariant; cbn; lra).
  split.
  - exact (proj2 (proj1 (drag_update_preserves_invariant _ H) (-1000) (-1000))).
  - exact (proj1 (proj1 (drag_update_preserves_invariant _ H) 1000 (-1000))).
Defined.

End DragProperties.

(** ** Reset *)

Section ResetProperties.

Import ImageEditor.

(** C6. From every editor state, the reset action gives brightness 100,
    contrast 100, saturation 100, rotation 0, crop mode off and the crop
    rectangle {10, 10, 80, 80}. *)
Theorem reset_restores_defaults :
  forall st : EditorState,
    brightness (reset st) = 100 /\
    contrast (reset st) = 100 /\
    saturation (reset st) = 100 /\
    rotation (reset st) = 0 /\
    isCropping (reset st) = false /\
    cropRect (reset st) = Rect.mk 10 10 80 80.
Proof.
  intros st. unfold reset. repeat split.
Qed.

End ResetProperties.

(** ** CSV export *)

Section CsvProperties.

Import ToolViews.

Lemma string_app_assoc (a b c : string) :
  ((a ++ b) ++ c = a ++ (b ++ c))%string.
Proof. induction a as [ | ch a IH]; cbn; [reflexivity | now rewrite IH]. Qed.

Lemma join_comma_is_csvLine (cells : list string) :
  Js.join ","%string cells = Spec.csvLine cells.
Proof.
  induction cells as [ | c [ | c' more] IH]; try reflexivity.
  cbn [Js.join Spec.csvLine] in *. now rewrite IH.
Qed.

Lemma join_lf_is_csvLines (lines : list (list string)) :
  Js.join LF (map (fun row => Js.join ","%string row) lines)
  = Spec.csvLines lines.
Proof.
  induction lines as [ | l [ | l' more] IH].
  - reflexivity.
  - cbn. apply join_comma_is_csvLine.
  - cbn [map Js.join Spec.csvLines] in *.
    now rewrite IH, join_comma_is_csvLine.
Qed.

Lemma csvContent_is_csvText (data : TableData) :
  csvContent data = Spec.csvText data.
Proof.
  unfold csvContent, Spec.csvText.
  change (Js.join ","%string (headers data)
            :: map (fun row => Js.join ","%string row) (rows data))
    with (map (fun row => Js.join ","%string row) (headers data :: rows data)).
  apply join_lf_is_csvLines.
Qed.

(** C7. For every table the exported blob is the one text made of the
    header cells joined by commas, then each row joined by commas, lines
    separated by one line feed; cells are copied as they are, so a cell
    holding a comma is exported like two cells; and headers A, B with the
    row 1, 2 give the text A,B line feed 1,2. *)
Theorem exportTableToCSV_text :
  (forall (data : TableData) (title : option string),
      blobParts (exportTableToCSV data title) = [Spec.csvText data]) /\
  (forall (a b : string) (more : list string) (rs : list (list string)),
      csvContent (mkTable ((a ++ "," ++ b)%string :: more) rs)
      = csvContent (mkTable (a :: b :: more) rs)) /\
  csvContent (mkTable ["A"; "B"]%string [["1"; "2"]%string])
  = ("A,B" ++ LF ++ "1,2")%string.
Proof.
  split; [ | split].
  - intros data title. unfold exportTableToCSV, saveFile; cbn [blobParts].
    now rewrite csvContent_is_csvText.
  - intros a b more rs. unfold csvContent; cbn [headers rows].
    f_equal. f_equal.
    destruct more as [ | c more]; cbn [Js.join].
    + reflexivity.
    + now rewrite !string_app_assoc.
  - reflexivity.
Qed.

End CsvProperties.

(** ** The encoder hand-off *)

Section ExportProperties.

Import Canvas2D ImageEditor ToolViews.

Lemma split_without_separator (sep : ascii) (s : string) :
  Js.contains sep s = false -> Js.split sep s = [s].
Proof.
  induction s as [ | c s IH]; cbn; intros H.
  - reflexivity.
  - apply orb_false_iff in H as [Hc Hs]. rewrite Hc, (IH Hs). reflexivity.
Qed.

Lemma split_at_first_separator (sep : ascii) (before after : string) :
  Js.contains sep before = false ->
  Js.split sep (before ++ String sep after)
  = before :: Js.split sep after.
Proof.
  induction before as [ | c s IH]; cbn; intros H.
  - now rewrite Ascii.eqb_refl.
  - apply orb_false_iff in H as [Hc Hs]. rewrite Hc, (IH Hs). reflexivity.
Qed.

Lemma base64_char_is_not_comma (c : ascii) :
  Js.is_base64_char c = true -> Ascii.eqb c ","%char = false.
Proof.
  destruct c as [[] [] [] [] [] [] [] []]; vm_compute; congruence.
Qed.

Lemma base64_has_no_comma (s : string) :
  Js.is_base64 s = true -> Js.contains ","%char s = false.
Proof.
  induction s as [ | c s IH]; cbn; intros H.
  - reflexivity.
  - apply andb_true_iff in H as [Hc Hs].
    now rewrite (base64_char_is_not_comma c Hc), (IH Hs).
Qed.

Lemma exportStep_payload (encoder : Canvas -> string -> R -> string)
      (canvas : Canvas) (meta payload : string) :
  encoder canvas "image/jpeg"%string (9 / 10)
  = ("data:" ++ meta ++ "," ++ payload)%string ->
  Js.contains ","%char meta = false ->
  Js.is_base64 payload = true ->
  exportStep encoder canvas = Some payload.
Proof.
  intros Hurl Hmeta Hb64. unfold exportStep. rewrite Hurl.
  change ("data:" ++ meta ++ "," ++ payload)%string
    with ("data:" ++ (meta ++ String ","%char payload))%string.
  rewrite <- string_app_assoc.
  rewrite split_at_first_separator.
  - rewrite split_without_separator by now apply base64_has_no_comma.
    reflexivity.
  - cbn. exact Hmeta.
Qed.

(** C9. On every save with a 2D context, the final surface is encoded by
    [toDataURL] as image/jpeg at quality 0.9; the data URL being data:,
    a media type, a comma and the base64 text, [onSave] receives the
    base64 text alone, which does not start with data:, and the wrapper's
    file keeps its handle and its MIME type while its payload becomes that
    text and its preview URL the data URL of that text under the file's
    MIME type. *)
Theorem save_hands_over_base64 :
  forall (p : Platform) (st : EditorState) (img : Image)
         (ws : WrapperState) (f : UploadedFile) (meta payload : string),
    getContext p = true ->
    toDataURL p (finalCanvas (tempGetContext p) st img)
              "image/jpeg"%string (9 / 10)
    = ("data:" ++ meta ++ "," ++ payload)%string ->
    Js.contains ","%char meta = false ->
    Js.is_base64 payload = true ->
    currentFile ws = Some f ->
    handleSave p st img = OnSave (Some payload) /\
    (forall rest : string, payload <> ("data:" ++ rest)%string) /\
    editorSaved (handleSave p st img) ws
    = Some (mkWrapper
              (Some (mkUploaded (file f)
                       ("data:" ++ mimeType f ++ ";base64," ++ payload)%string
                       payload
                       (mimeType f)))
              false).
Proof.
  intros p st img ws f meta payload Hctx Hurl Hmeta Hb64 Hfile.
  assert (Hsave : handleSave p st img = OnSave (Some payload)).
  { unfold handleSave. rewrite Hctx.
    now rewrite (exportStep_payload _ _ meta payload Hurl Hmeta Hb64). }
  split; [exact Hsave | split].
  - intros rest ->. cbn in Hb64. discriminate.
  - rewrite Hsave. unfold editorSaved, handleEditSave. now rewrite Hfile.
Qed.

Lemma save_hands_over_base64_witness :
  handleSave standInPlatform initialState (mkImage 4 3)
  = OnSave (Some "/9j/4AAQSkZJRg=="%string) /\
  (forall rest : string, "/9j/4AAQSkZJRg=="%string <> ("data:" ++ rest)%string) /\
  editorSaved (handleSave standInPlatform initialState (mkImage 4 3))
    (mkWrapper
       (Some (mkUploaded (mkFile "scan.png" "image/png")
                "data:image/png;base64,iVBORw0KGgo=" "iVBORw0KGgo="
                "image/png"))
       true)
  = Some (mkWrapper
            (Some (mkUploaded (mkFile "scan.png" "image/png")
                     "data:image/png;base64,/9j/4AAQSkZJRg=="
                     "/9j/4AAQSkZJRg==" "image/png"))
            false).
Proof.
  apply (save_hands_over_base64 standInPlatform initialState (mkImage 4 3)
           (mkWrapper
              (Some (mkUploaded (mkFile "scan.png" "image/png")
                       "data:image/png;base64,iVBORw0KGgo=" "iVBORw0KGgo="
                       "image/png"))
              true)
           (mkUploaded (mkFile "scan.png" "image/png")
              "data:image/png;base64,iVBORw0KGgo=" "iVBORw0KGgo=" "image/png")
           "image/jpeg;base64"%string "/9j/4AAQSkZJRg=="%string); reflexivity.
Defined.

End ExportProperties.

(** ** The structured-extraction service *)

Section ServiceProperties.

Import Service.

Variable JSON_parse : string -> Json + string.
Variable generateContent : Request -> Outcome Response.

Lemma or_else_falsy (t : option string) (d : string) :
  falsy t = true -> Js.or_else t d = d.
Proof. destruct t as [[ | c s] | ]; cbn; congruence. Qed.

Lemma or_else_truthy (t : string) (d : string) :
  t <> EmptyString -> Js.or_else (Some t) d = t.
Proof. destruct t; cbn; congruence. Qed.

Lemma getAiClient_v1_ok (env : Env) :
  falsy (process_env_API_KEY env) = false ->
  exists key, getAiClient_v1 env = ret key.
Proof. intros H. unfold getAiClient_v1. rewrite H. eauto. Qed.

Lemma getAiClient_v2_ok (env : Env) :
  falsy (process_env_API_KEY env) = false ->
  exists key, getAiClient_v2 env = ret key.
Proof. intros H. unfold getAiClient_v2. rewrite H, H. eauto. Qed.

(** The four operations end in the same way once the client exists and
    the request returns: with what parsing the text, or "{}" in its
    place, gives; they differ in what they do with a parse failure. *)
Lemma v1_after_response env data mime instr schema resp lbl msg :
  falsy (process_env_API_KEY env) = false ->
  generateContent (mkRequest "gemini-2.5-flash" data mime instr schema)
  = Return resp ->
  (ai <- getAiClient_v1 env ;;
   response <- await (generateContent
     (mkRequest "gemini-2.5-flash" data mime instr schema)) ;;
   try_catch (parse JSON_parse (Js.or_else (text response) "{}"))
     (fun e => console_error lbl (Some e) ;;; throw (Error msg)))%service
  = try_catch (parse JSON_parse (Js.or_else (text resp) "{}"))
      (fun e => console_error lbl (Some e) ;;; throw (Error msg))%service.
Proof.
  intros Hkey Hgen. destruct (getAiClient_v1_ok env Hkey) as [key ->].
  rewrite Hgen. unfold bind, ret, await.
  destruct (try_catch _ _) as [l r]. reflexivity.
Qed.

Lemma v2_after_response env data mime instr schema resp lbl :
  falsy (process_env_API_KEY env) = false ->
  generateContent (mkRequest "gemini-2.5-flash" data mime instr schema)
  = Return resp ->
  try_catch
    (ai <- getAiClient_v2 env ;;
     response <- await (generateContent
       (mkRequest "gemini-2.5-flash" data mime instr schema)) ;;
     parse JSON_parse (Js.or_else (text response) "{}"))%service
    (fun e => console_error lbl (Some e) ;;; throw e)%service
  = try_catch (parse JSON_parse (Js.or_else (text resp) "{}"))
      (fun e => console_error lbl (Some e) ;;; throw e)%service.
Proof.
  intros Hkey Hgen. destruct (getAiClient_v2_ok env Hkey) as [key ->].
  rewrite Hgen. unfold bind, ret, await.
  destruct (parse _ _) as [l r]. reflexivity.
Qed.

End ServiceProperties.

(** C10. With an API key, a request that returns, and a response whose
    text is missing or empty, table extraction and ID-card scanning, in
    both versions of the service, parse the literal "{}" instead and
    return the empty object without logging or throwing: exactly what
    they do for a response whose text is "{}". *)
Theorem empty_response_gives_empty_object :
  forall (JSON_parse : string -> Service.Json + string)
         (generateContent generateEmptyObject :
            Service.Request -> Service.Outcome Service.Response)
         (env : Service.Env) (data mime : string) (resp : Service.Response),
    JSON_parse "{}"%string = inl (Service.JObject []) ->
    Service.falsy (Service.process_env_API_KEY env) = false ->
    (forall req, generateContent req = Service.Return resp) ->
    Service.falsy (Service.text resp) = true ->
    (forall req, generateEmptyObject req
                 = Service.Return (Service.mkResponse (Some "{}"%string))) ->
    let empty : Service.M Service.Json :=
      ([], Service.Return (Service.JObject [])) in
    (Service.extractTableData_v1 JSON_parse generateContent env data mime = empty /\
     Service.scanIDCard_v1 JSON_parse generateContent env data mime = empty /\
     Service.extractTableData_v2 JSON_parse generateContent env data mime = empty /\
     Service.scanIDCard_v2 JSON_parse generateContent env data mime = empty) /\
    (Service.extractTableData_v1 JSON_parse generateEmptyObject env data mime = empty /\
     Service.scanIDCard_v1 JSON_parse generateEmptyObject env data mime = empty /\
     Service.extractTableData_v2 JSON_parse generateEmptyObject env data mime = empty /\
     Service.scanIDCard_v2 JSON_parse generateEmptyObject env data mime = empty).
Proof.
  intros JSON_parse gen gen' env data mime resp Hparse Hkey Hgen Htext Hgen' empty.
  unfold Service.extractTableData_v1, Service.scanIDCard_v1,
    Service.extractTableData_v2, Service.scanIDCard_v2.
  rewrite !(v1_after_response JSON_parse gen _ _ _ _ _ resp) by auto.
  rewrite !(v2_after_response JSON_parse gen _ _ _ _ _ resp) by auto.
  rewrite !(v1_after_response JSON_parse gen' _ _ _ _ _
              (Service.mkResponse (Some "{}"%string))) by auto.
  rewrite !(v2_after_response JSON_parse gen' _ _ _ _ _
              (Service.mkResponse (Some "{}"%string))) by auto.
  rewrite (or_else_falsy _ _ Htext). cbn [Service.text Js.or_else].
  unfold Service.parse. rewrite Hparse. repeat split.
Qed.

Lemma empty_response_gives_empty_object_witness :
  Service.extractTableData_v2 Service.parse_empty_object_only
    (fun _ => Service.Return (Service.mkResponse None))
    (Service.mkEnv (Some "key"%string) None) "iVBORw0KGgo=" "image/png"
  = ([], Service.Return (Service.JObject [])).
Proof.
  refine (proj1 (proj2 (proj2 (proj1
    (empty_response_gives_empty_object Service.parse_empty_object_only
       (fun _ => Service.Return (Service.mkResponse None))
       (fun _ => Service.Return (Service.mkResponse (Some "{}"%string)))
       (Service.mkEnv (Some "key"%string) None) "iVBORw0KGgo=" "image/png"
       (Service.mkResponse None) _ _ _ _ _))))); reflexivity || (intros; reflexivity).
Defined.

(** C8 (as the code behaves). With an API key, a request that returns and
    a response whose text is not valid JSON, the version with the
    parse-specific handler throws its own descriptive [Error] from both
    operations, whereas the version that wraps the whole body logs and
    rethrows: the [SyntaxError] of [JSON.parse] reaches the caller. *)
Theorem parse_failure_outcomes :
  forall (JSON_parse : string -> Service.Json + string)
         (generateContent : Service.Request -> Service.Outcome Service.Response)
         (env : Service.Env) (data mime : string) (resp : Service.Response)
         (t msg : string),
    Service.falsy (Service.process_env_API_KEY env) = false ->
    (forall req, generateContent req = Service.Return resp) ->
    Service.text resp = Some t -> t <> EmptyString ->
    JSON_parse t = inr msg ->
    snd (Service.extractTableData_v1 JSON_parse generateContent env data mime)
    = Service.Throw (Service.Error "Could not extract table data.") /\
    snd (Service.scanIDCard_v1 JSON_parse generateContent env data mime)
    = Service.Throw (Service.Error "Could not scan ID card.") /\
    snd (Service.extractTableData_v2 JSON_parse generateContent env data mime)
    = Service.Throw (Service.SyntaxError msg) /\
    snd (Service.scanIDCard_v2 JSON_parse generateContent env data mime)
    = Service.Throw (Service.SyntaxError msg).
Proof.
  intros JSON_parse gen env data mime resp t msg Hkey Hgen Htext Hne Hparse.
  unfold Service.extractTableData_v1, Service.scanIDCard_v1,
    Service.extractTableData_v2, Service.scanIDCard_v2.
  rewrite !(v1_after_response JSON_parse gen _ _ _ _ _ resp) by auto.
  rewrite !(v2_after_response JSON_parse gen _ _ _ _ _ resp) by auto.
  rewrite Htext, (or_else_truthy _ _ Hne).
  unfold Service.parse. rewrite Hparse. repeat split.
Qed.

Lemma parse_failure_outcomes_witness :
  snd (Service.extractTableData_v2 Service.parse_empty_object_only
         (fun _ => Service.Return (Service.mkResponse (Some "not json"%string)))
         (Service.mkEnv (Some "key"%string) None) "iVBORw0KGgo=" "image/png")
  = Service.Throw (Service.SyntaxError "Unexpected token").
Proof.
  refine (proj1 (proj2 (proj2
    (parse_failure_outcomes Service.parse_empty_object_only
       (fun _ => Service.Return (Service.mkResponse (Some "not json"%string)))
       (Service.mkEnv (Some "key"%string) None) "iVBORw0KGgo=" "image/png"
       (Service.mkResponse (Some "not json"%string)) "not json" "Unexpected token"
       _ _ _ _ _)))); try reflexivity.
  discriminate.
Defined.

(** ** The transform and crop steps of a save *)

Section SaveProperties.

Import Canvas2D ImageEditor Spec.

(** *** Canvas dimensions *)

Lemma trunc_floor (v : R) (n : Z) :
  (0 <= n)%Z -> IZR n <= v < IZR n + 1 -> Js.trunc v = n.
Proof.
  intros Hn Hv. unfold Js.trunc.
  pose proof (IZR_le 0 n Hn) as H0.
  destruct (Rle_dec 0 v) as [ | Hneg]; [ | lra].
  symmetry. apply Int_part_spec. lra.
Qed.

Lemma to_dimension_floor (default : Z) (v : R) (n : Z) :
  (0 <= n <= 2147483647)%Z -> IZR n <= v < IZR n + 1 ->
  Js.to_dimension default v = n.
Proof.
  intros Hn Hv. unfold Js.to_dimension.
  rewrite (trunc_floor v n) by (lia || exact Hv).
  rewrite Z.mod_small by lia.
  destruct (Z.leb_spec n 2147483647); [reflexivity | lia].
Qed.

Lemma to_dimension_whole (default n : Z) (v : R) :
  (0 <= n <= 2147483647)%Z -> v = IZR n -> Js.to_dimension default v = n.
Proof. intros Hn ->. apply to_dimension_floor; [exact Hn | lra]. Qed.

Lemma to_dimension_in_range (default : Z) (v : R) :
  0 <= v < 2147483648 ->
  IZR (Js.to_dimension default v) <= v < IZR (Js.to_dimension default v) + 1.
Proof.
  intros Hv. destruct (base_Int_part v) as [Hlo Hhi].
  assert (H0 : (0 <= Int_part v)%Z).
  { assert (Hlt : (-1 < Int_part v)%Z) by (apply lt_IZR; lra). lia. }
  assert (H1 : (Int_part v < 2147483648)%Z) by (apply lt_IZR; lra).
  rewrite (to_dimension_floor default v (Int_part v)); [lra | lia | lra].
Qed.

(** *** Quarter turns *)

Lemma quarter_turn_trig (k : Z) :
  let a := 90 * IZR k * PI / 180 in
  (Z.even k = true -> Rabs (cos a) = 1 /\ Rabs (sin a) = 0) /\
  (Z.even k = false -> Rabs (cos a) = 0 /\ Rabs (sin a) = 1).
Proof.
  intros a.
  assert (Hsq : forall c s, c * c + s * s = 1 -> s = 0 -> Rabs c = 1).
  { intros c s H ->. unfold Rabs. destruct (Rcase_abs c); nra. }
  pose proof (sin2_cos2 a) as Hone. unfold Rsqr in Hone.
  split; intros Hk.
  - apply Z.even_spec in Hk as [m ->].
    assert (Hs : sin a = 0).
    { apply sin_eq_0_1. exists m. unfold a. rewrite mult_IZR. lra. }
    split.
    + apply (Hsq _ (sin a)); lra.
    + rewrite Hs. apply Rabs_R0.
  - assert (Ho : Z.odd k = true) by (rewrite <- Z.negb_even, Hk; reflexivity).
    apply Z.odd_spec in Ho as [m ->].
    assert (Hc : cos a = 0).
    { apply cos_eq_0_1. exists m. unfold a. rewrite plus_IZR, mult_IZR. lra. }
    split.
    + rewrite Hc. apply Rabs_R0.
    + apply (Hsq _ (cos a)); lra.
Qed.

(** *** The rotated source inside its bounding box *)

Lemma rotated_point_in_bounds (w h c s u v : R) :
  0 < w -> 0 < h -> 0 <= u <= w -> 0 <= v <= h ->
  let W := w * Rabs c + h * Rabs s in
  let H := w * Rabs s + h * Rabs c in
  0 <= c * (- w / 2 + u * w / w) + - s * (- h / 2 + v * h / h) + W / 2 <= W /\
  0 <= s * (- w / 2 + u * w / w) + c * (- h / 2 + v * h / h) + H / 2 <= H.
Proof.
  intros Hw Hh Hu Hv W H.
  replace (u * w / w) with u by (field; lra).
  replace (v * h / h) with v by (field; lra).
  unfold W, H, Rabs.
  destruct (Rcase_abs c), (Rcase_abs s); split; split; nra.
Qed.

Lemma transform_ctm (W H theta : R) :
  compose (compose identity (translation (W / 2) (H / 2)))
          (Canvas2D.rotation theta)
  = centredRotation W H theta.
Proof.
  unfold compose, identity, translation, Canvas2D.rotation, centredRotation; cbn.
  f_equal; ring.
Qed.

(** What the transform step leaves on the canvas, for every rotation. *)
Lemma transformStep_canvas (st : EditorState) (img : Image) :
  let theta := rotation st * PI / 180 in
  let w := IZR (img_width img) in
  let h := IZR (img_height img) in
  let W := w * Rabs (cos theta) + h * Rabs (sin theta) in
  let H := w * Rabs (sin theta) + h * Rabs (cos theta) in
  transformStep st img createCanvas =
  (W, H,
   mkCanvas (Js.to_dimension 300 W) (Js.to_dimension 150 H)
     (FilterBCS (brightness st) (contrast st) (saturation st))
     (centredRotation W H theta)
     [DrawImageOp (ImageSource img)
        (FilterBCS (brightness st) (contrast st) (saturation st))
        (centredRotation W H theta)
        0 0 w h (- w / 2) (- h / 2) w h]).
Proof.
  intros theta w h W H. unfold transformStep.
  unfold drawImage3, paint, rotate, translate, set_filter, set_height, set_width.
  cbn [width height filter transform bitmap source_width source_height app].
  fold theta. fold w. fold h. fold W. fold H.
  rewrite transform_ctm. reflexivity.
Qed.

(** For every rotation, the rotated source lies inside the box of the
    computed size [newWidth] by [newHeight], before any truncation. *)
Lemma rotated_source_in_computed_box (st : EditorState) (img : Image) (u v : R) :
  let theta := rotation st * PI / 180 in
  let w := IZR (img_width img) in
  let h := IZR (img_height img) in
  let W := w * Rabs (cos theta) + h * Rabs (sin theta) in
  let H := w * Rabs (sin theta) + h * Rabs (cos theta) in
  0 < w -> 0 < h -> 0 <= u <= w -> 0 <= v <= h ->
  let p := place (centredRotation W H theta) w h (- w / 2) (- h / 2) w h u v in
  0 <= fst p <= W /\ 0 <= snd p <= H.
Proof.
  intros theta w h W H Hw Hh Hu Hv p.
  unfold p, place, apply, centredRotation; cbn [fst snd ma mb mc md me mf].
  apply rotated_point_in_bounds; assumption.
Qed.

(** The size of the canvas after a whole number of quarter turns. *)
Lemma canvas_size_at_quarter_turns (st : EditorState) (img : Image) (k : Z) :
  rotation st = 90 * IZR k ->
  (0 < img_width img <= 2147483647)%Z ->
  (0 < img_height img <= 2147483647)%Z ->
  (width (snd (transformStep st img createCanvas)),
   height (snd (transformStep st img createCanvas))) =
  if Z.even k then (img_width img, img_height img)
  else (img_height img, img_width img).
Proof.
  intros Hrot Hw Hh. rewrite transformStep_canvas. cbn [snd width height].
  rewrite Hrot.
  destruct (quarter_turn_trig k) as [Heven Hodd].
  destruct (Z.even k).
  - destruct (Heven eq_refl) as [-> ->].
    rewrite (to_dimension_whole 300 (img_width img)) by (lia || lra).
    rewrite (to_dimension_whole 150 (img_height img)) by (lia || lra).
    reflexivity.
  - destruct (Hodd eq_refl) as [-> ->].
    rewrite (to_dimension_whole 300 (img_height img)) by (lia || lra).
    rewrite (to_dimension_whole 150 (img_width img)) by (lia || lra).
    reflexivity.
Qed.

(** When the computed size is whole, the transform step does what the
    specification states. *)
Lemma transformClaim_when_whole (st : EditorState) (img : Image) (n m : Z) :
  let theta := rotation st * PI / 180 in
  let w := IZR (img_width img) in
  let h := IZR (img_height img) in
  0 < w -> 0 < h ->
  (0 <= n <= 2147483647)%Z -> (0 <= m <= 2147483647)%Z ->
  w * Rabs (cos theta) + h * Rabs (sin theta) = IZR n ->
  w * Rabs (sin theta) + h * Rabs (cos theta) = IZR m ->
  transformClaim st img.
Proof.
  intros theta w h Hw Hh Hn Hm HW HH.
  pose proof (rotated_source_in_computed_box st img) as Hbox.
  cbv zeta in Hbox. fold theta w h in Hbox.
  unfold transformClaim. rewrite (transformStep_canvas st img).
  fold theta w h. cbn [snd width height bitmap].
  rewrite (to_dimension_whole 300 n) by assumption.
  rewrite (to_dimension_whole 150 m) by assumption.
  split; [now rewrite HW | ]. split; [now rewrite HH | ].
  split; [reflexivity | ].
  constructor; [ | constructor]. intros u v Hu Hv.
  specialize (Hbox u v Hw Hh Hu Hv).
  unfold on_surface; cbn [width height].
  rewrite <- HW, <- HH. exact Hbox.
Qed.

(** What the transform step does, for every value of the rotation: it
    computes the size w|cos| + h|sin| by w|sin| + h|cos| of the rotated
    bounding box, draws the filtered source once, centred in that box,
    rotated and offset by (-w/2, -h/2), so that every point of the source
    lies in that box, and gives the destination the whole parts of that
    size.  When the computed size is whole, and so for every rotation that
    is a whole number of quarter turns, the destination has exactly that
    size (w by h after an even number of quarter turns, h by w after an
    odd number) and nothing of the rotated source is clipped. *)
Lemma transform_step_result :
  forall (st : EditorState) (img : Image),
    (0 < img_width img <= 2147483647)%Z ->
    (0 < img_height img <= 2147483647)%Z ->
    let theta := rotation st * PI / 180 in
    let w := IZR (img_width img) in
    let h := IZR (img_height img) in
    let W := w * Rabs (cos theta) + h * Rabs (sin theta) in
    let H := w * Rabs (sin theta) + h * Rabs (cos theta) in
    let c := snd (transformStep st img createCanvas) in
    (bitmap c =
       [DrawImageOp (ImageSource img)
          (FilterBCS (brightness st) (contrast st) (saturation st))
          (centredRotation W H theta) 0 0 w h (- w / 2) (- h / 2) w h] /\
     (forall u v : R,
         0 <= u <= w -> 0 <= v <= h ->
         0 <= fst (place (centredRotation W H theta) w h (- w / 2) (- h / 2)
                         w h u v) <= W /\
         0 <= snd (place (centredRotation W H theta) w h (- w / 2) (- h / 2)
                         w h u v) <= H) /\
     (W < 2147483648 -> IZR (width c) <= W < IZR (width c) + 1) /\
     (H < 2147483648 -> IZR (height c) <= H < IZR (height c) + 1)) /\
    (forall n m : Z,
        (0 <= n <= 2147483647)%Z -> (0 <= m <= 2147483647)%Z ->
        W = IZR n -> H = IZR m -> transformClaim st img) /\
    (forall k : Z,
        rotation st = 90 * IZR k ->
        transformClaim st img /\
        (width c, height c) =
        if Z.even k then (img_width img, img_height img)
        else (img_height img, img_width img)).
Proof.
  intros st img Hw Hh theta w h W H c.
  assert (Hw' : 0 < w) by (apply IZR_lt; lia).
  assert (Hh' : 0 < h) by (apply IZR_lt; lia).
  assert (HW0 : 0 <= W)
    by (pose proof (Rabs_pos (cos theta)); pose proof (Rabs_pos (sin theta));
        unfold W; nra).
  assert (HH0 : 0 <= H)
    by (pose proof (Rabs_pos (cos theta)); pose proof (Rabs_pos (sin theta));
        unfold H; nra).
  split; [ | split].
  - unfold c. rewrite (transformStep_canvas st img).
    fold theta w h W H. cbn [snd width height bitmap].
    split; [reflexivity | ].
    split; [intros u v Hu Hv;
            exact (rotated_source_in_computed_box st img u v Hw' Hh' Hu Hv) | ].
    split; intros Hlt; apply to_dimension_in_range; lra.
  - intros n m Hn Hm HWn HHm.
    exact (transformClaim_when_whole st img n m Hw' Hh' Hn Hm HWn HHm).
  - intros k Hrot.
    split; [ | exact (canvas_size_at_quarter_turns st img k Hrot Hw Hh)].
    destruct (quarter_turn_trig k) as [Heven Hodd].
    assert (Htheta : theta = 90 * IZR k * PI / 180)
      by (unfold theta; now rewrite Hrot).
    destruct (Z.even k).
    + destruct (Heven eq_refl) as [Hc Hs]. rewrite <- Htheta in Hc, Hs.
      apply (transformClaim_when_whole st img (img_width img) (img_height img));
        try assumption; try lia; fold theta w h; rewrite Hc, Hs; lra.
    + destruct (Hodd eq_refl) as [Hc Hs]. rewrite <- Htheta in Hc, Hs.
      apply (transformClaim_when_whole st img (img_height img) (img_width img));
        try assumption; try lia; fold theta w h; rewrite Hc, Hs; lra.
Qed.

(** *** The crop step *)

(** What the crop step leaves on the canvas when crop mode is on and the
    temporary canvas has a context. *)
Lemma cropStep_canvas (st : EditorState) (newWidth newHeight : R)
      (transformed : Canvas) :
  isCropping st = true ->
  let r := cropRect st in
  let cx := Rect.x r / 100 * newWidth in
  let cy := Rect.y r / 100 * newHeight in
  let cw := Rect.w r / 100 * newWidth in
  let ch := Rect.h r / 100 * newHeight in
  cropStep true st newWidth newHeight transformed =
  mkCanvas (Js.to_dimension 300 cw) (Js.to_dimension 150 ch) FilterNone identity
    [ClearRectOp identity 0 0 cw ch;
     DrawImageOp (copyOf transformed newWidth newHeight) FilterNone identity
       cx cy cw ch 0 0 cw ch].
Proof.
  intros Hcrop r cx cy cw ch. unfold cropStep. rewrite Hcrop. reflexivity.
Qed.



(** The computed size after a whole number of quarter turns. *)
Lemma computed_size_at_quarter_turns (st : EditorState) (img : Image) (k : Z) :
  rotation st = 90 * IZR k ->
  fst (transformStep st img createCanvas) =
  if Z.even k then (IZR (img_width img), IZR (img_height img))
  else (IZR (img_height img), IZR (img_width img)).
Proof.
  intros Hrot. rewrite transformStep_canvas. cbn [fst]. rewrite Hrot.
  destruct (quarter_turn_trig k) as [Heven Hodd].
  destruct (Z.even k).
  - destruct (Heven eq_refl) as [-> ->]. f_equal; ring.
  - destruct (Hodd eq_refl) as [-> ->]. f_equal; ring.
Qed.

Lemma finalCanvas_unfold (tempCtx : bool) (st : EditorState) (img : Image) :
  finalCanvas tempCtx st img =
  cropStep tempCtx st
    (fst (fst (transformStep st img createCanvas)))
    (snd (fst (transformStep st img createCanvas)))
    (snd (transformStep st img createCanvas)).
Proof.
  unfold finalCanvas. destruct (transformStep st img createCanvas) as [[W H] c].
  reflexivity.
Qed.


(** *** Crop mode and rotation *)

(** Whatever the rotation, a save in crop mode encodes the cropped
    surface. *)
Lemma save_crops_whenever_crop_mode_is_on (st : EditorState) (img : Image) :
  isCropping st = true ->
  exists cx cy cw ch copy,
    bitmap (finalCanvas true st img) =
    [ClearRectOp identity 0 0 cw ch;
     DrawImageOp copy FilterNone identity cx cy cw ch 0 0 cw ch].
Proof.
  intros Hcrop. rewrite finalCanvas_unfold, cropStep_canvas by exact Hcrop.
  cbn [bitmap]. eauto 6.
Qed.

(** C3 (what the code does). After turning crop mode on and rotating
    once, the overlay is hidden and the notice is shown, yet a save of a
    1000 by 500 source encodes a 400 by 800 surface, the crop of the
    500 by 1000 rotated surface, not that surface itself. *)
Theorem crop_applied_while_rotated :
  render (rotateRight (toggleCrop initialState)) = mkOverlay None true /\
  (width (finalCanvas true (rotateRight (toggleCrop initialState))
            (mkImage 1000 500)),
   height (finalCanvas true (rotateRight (toggleCrop initialState))
             (mkImage 1000 500))) = (400, 800)%Z /\
  (width (snd (transformStep (rotateRight (toggleCrop initialState))
                 (mkImage 1000 500) createCanvas)),
   height (snd (transformStep (rotateRight (toggleCrop initialState))
                  (mkImage 1000 500) createCanvas))) = (500, 1000)%Z.
Proof.
  set (st := rotateRight (toggleCrop initialState)).
  set (img := mkImage 1000 500).
  assert (Hrot : rotation st = 90 * IZR 1) by (cbn; lra).
  split; [ | split].
  - unfold render, rotation_is_zero.
    destruct (Req_dec_T (rotation st) 0) as [H0 | Hne].
    + rewrite Hrot in H0. lra.
    + reflexivity.
  - pose proof (computed_size_at_quarter_turns st img 1 Hrot) as Hsize.
    rewrite finalCanvas_unfold.
    destruct (transformStep st img createCanvas) as [[W H] c].
    cbn [fst snd Z.even img img_width img_height] in *. injection Hsize as -> ->.
    rewrite (cropStep_canvas st 500 1000 c eq_refl). cbn [width height].
    cbn [st cropRect rotateRight setRotation toggleCrop setIsCropping
         initialState Rect.w Rect.h].
    rewrite (to_dimension_floor 300 (80 / 100 * 500) 400) by (lia || lra).
    rewrite (to_dimension_floor 150 (80 / 100 * 1000) 800) by (lia || lra).
    reflexivity.
  - apply (canvas_size_at_quarter_turns st img 1 Hrot); cbn; lia.
Qed.

End SaveProperties.

(** ** The states the editor can reach *)

Section Reachability.

Import ImageEditor Spec.

Lemma initial_editorInvariant : editorInvariant initialState.
Proof.
  split; [ | split].
  - unfold cropInvariant; cbn; lra.
  - cbn. intros d Hd. discriminate.
  - exists 0%Z. cbn. lra.
Qed.

Lemma step_editorInvariant (st : EditorState) (ev : Event) :
  editorInvariant st -> editorInvariant (step st ev).
Proof.
  intros (Hrect & Hdrag & k & Hrot).
  assert (Hsame : editorInvariant st) by (split; [ | split]; eauto).
  destruct ev; cbn [step]; try exact Hsame.
  - (* rotate left *)
    split; [exact Hrect | split; [exact Hdrag | ]].
    exists (k - 1)%Z. cbn. rewrite Hrot, minus_IZR. lra.
  - (* rotate right *)
    split; [exact Hrect | split; [exact Hdrag | ]].
    exists (k + 1)%Z. cbn. rewrite Hrot, plus_IZR. lra.
  - (* reset *)
    split; [ | split].
    + unfold cropInvariant; cbn; lra.
    + exact Hdrag.
    + exists 0%Z. cbn. lra.
  - (* press on the body *)
    destruct (cropOverlay (render st)); [ | exact Hsame].
    split; [exact Hrect | split; [ | now exists k]].
    cbn. intros d [= <-]. exact Hrect.
  - (* press on the handle *)
    destruct (cropOverlay (render st)); [ | exact Hsame].
    split; [exact Hrect | split; [ | now exists k]].
    cbn. intros d [= <-]. exact Hrect.
  - (* pointer move *)
    unfold window_mousemove, handleMouseMove.
    destruct (isCropping st); [ | exact Hsame].
    destruct (dragRef st) as [d | ] eqn:Hd; [ | exact Hsame].
    split; [ | split; [ | now exists k]].
    + cbn. apply draggedRect_invariant, Hdrag. reflexivity.
    + cbn. rewrite Hd. exact Hdrag.
  - (* pointer up *)
    unfold window_mouseup.
    destruct (isCropping st); [ | exact Hsame].
    split; [exact Hrect | split; [ | now exists k]].
    cbn. intros d Hd. discriminate.
Qed.

(** Every reachable state satisfies the editor invariant: C4 and C5
    apply to every gesture, and the rotations of C1 are the only ones. *)
Lemma reachable_editorInvariant (st : EditorState) :
  reachable st -> editorInvariant st.
Proof.
  intros (evs & _ & ->).
  induction evs as [ | ev evs IH] using rev_ind.
  - exact initial_editorInvariant.
  - rewrite fold_left_app. cbn [fold_left].
    apply step_editorInvariant, IH.
Qed.

End Reachability.

(** ** The transform step in the states of the editor *)

Section TransformClaim.

Import Canvas2D ImageEditor Spec.

(** C1. For every rotation the editor can hold, that is in every
    reachable state, and more generally for every rotation that is a whole
    number of quarter turns, and for every source image of width w and
    height h, the transform step allocates a destination of exactly
    w|cos| + h|sin| by w|sin| + h|cos| and draws the filtered source once,
    translated to the centre of the destination, rotated and offset by
    (-w/2, -h/2), so that every point of the rotated source lies on the
    destination: no corner is clipped.  The destination is w by h after an
    even number of quarter turns and h by w after an odd number. *)
Theorem transform_step_contains_rotated_image :
  forall (st : EditorState) (img : Image),
    (0 < img_width img <= 2147483647)%Z ->
    (0 < img_height img <= 2147483647)%Z ->
    (reachable st -> transformClaim st img) /\
    (forall k : Z,
        rotation st = 90 * IZR k ->
        transformClaim st img /\
        (width (snd (transformStep st img createCanvas)),
         height (snd (transformStep st img createCanvas))) =
        if Z.even k then (img_width img, img_height img)
        else (img_height img, img_width img)).
Proof.
  intros st img Hw Hh.
  destruct (transform_step_result st img Hw Hh) as (_ & _ & Hquarter).
  split; [ | exact Hquarter].
  intros Hreach.
  destruct (reachable_editorInvariant st Hreach) as (_ & _ & k & Hrot).
  exact (proj1 (Hquarter k Hrot)).
Qed.

Lemma transform_step_contains_rotated_image_witness :
  transformClaim (fold_left step [ClickRotateRight] initialState)
                 (mkImage 1000 500).
Proof.
  refine (proj1 (transform_step_contains_rotated_image
                   (fold_left step [ClickRotateRight] initialState)
                   (mkImage 1000 500) _ _) _).
  - cbn. lia.
  - cbn. lia.
  - exists [ClickRotateRight]. split; [repeat constructor | reflexivity].
Defined.

End TransformClaim.

(** ** Further properties of the editor *)

Section EditorMore.

Import Canvas2D ImageEditor Spec.

Ltac cases_minmax :=
  unfold Rmax, Rmin;
  repeat match goal with
         | |- context [Rle_dec ?a ?b] => destruct (Rle_dec a b)
         | H : context [Rle_dec ?a ?b] |- _ => destruct (Rle_dec a b)
         end;
  try reflexivity; try lra.

(** X1. Every state the editor reaches from its initial state, by any
    sequence of clicks, slider moves, presses, pointer moves and releases,
    has a crop rectangle within bounds and at least 10 by 10, a drag
    snapshot, if any, with the same property, and a rotation that is a
    whole number of quarter turns. *)
Theorem reachable_states_keep_invariant :
  forall st : EditorState,
    reachable st ->
    cropInvariant (cropRect st) /\
    (forall d, dragRef st = Some d -> cropInvariant (startRect d)) /\
    exists k : Z, rotation st = 90 * IZR k.
Proof. intros st Hreach. exact (reachable_editorInvariant st Hreach). Qed.

Lemma reachable_states_keep_invariant_witness :
  cropInvariant
    (cropRect
       (fold_left step
          [ClickCrop; PressHandle (MouseEvent.mk 100 100);
           PointerMove (MouseEvent.mk 50 60) (DOMRect.mk 500 400);
           PointerUp; ClickRotateRight]
          initialState)).
Proof.
  refine (proj1 (reachable_states_keep_invariant _ _)).
  exists [ClickCrop; PressHandle (MouseEvent.mk 100 100);
          PointerMove (MouseEvent.mk 50 60) (DOMRect.mk 500 400);
          PointerUp; ClickRotateRight].
  split; [ | reflexivity].
  repeat constructor; cbn; lra.
Defined.

(** X2. A drag follows the pointer inside the bounds and stops at them:
    a [move] past the left or top edge leaves the rectangle at 0, past the
    right or bottom edge at 100 - w or 100 - h, and in between at the
    snapshot position plus the delta; a [se] resize below the minimum
    leaves the size at 10, past the right or bottom edge at 100 - x or
    100 - y, and in between at the snapshot size plus the delta. *)
Theorem drag_stops_at_the_bounds :
  forall (r : Rect.t) (dx dy : R),
    cropInvariant r ->
    let m := draggedRect (Some move) r dx dy in
    let s := draggedRect (Some se) r dx dy in
    ((dx <= - Rect.x r -> Rect.x m = 0) /\
     (100 - Rect.w r - Rect.x r <= dx -> Rect.x m = 100 - Rect.w r) /\
     (- Rect.x r <= dx <= 100 - Rect.w r - Rect.x r ->
      Rect.x m = Rect.x r + dx) /\
     (dy <= - Rect.y r -> Rect.y m = 0) /\
     (100 - Rect.h r - Rect.y r <= dy -> Rect.y m = 100 - Rect.h r) /\
     (- Rect.y r <= dy <= 100 - Rect.h r - Rect.y r ->
      Rect.y m = Rect.y r + dy)) /\
    ((dx <= 10 - Rect.w r -> Rect.w s = 10) /\
     (100 - Rect.x r - Rect.w r <= dx -> Rect.w s = 100 - Rect.x r) /\
     (10 - Rect.w r <= dx <= 100 - Rect.x r - Rect.w r ->
      Rect.w s = Rect.w r + dx) /\
     (dy <= 10 - Rect.h r -> Rect.h s = 10) /\
     (100 - Rect.y r - Rect.h r <= dy -> Rect.h s = 100 - Rect.y r) /\
     (10 - Rect.h r <= dy <= 100 - Rect.y r - Rect.h r ->
      Rect.h s = Rect.h r + dy)).
Proof.
  intros r dx dy (Hx & Hy & Hxw & Hyh & Hw & Hh) m s.
  unfold m, s, draggedRect; cbn [Rect.x Rect.y Rect.w Rect.h].
  repeat split; intros Hd; cases_minmax.
Qed.

Lemma drag_stops_at_the_bounds_witness :
  Rect.x (draggedRect (Some move) (Rect.mk 10 10 80 80) 500 0) = 100 - 80 /\
  Rect.w (draggedRect (Some se) (Rect.mk 10 10 80 80) (-500) 0) = 10.
Proof.
  assert (H : cropInvariant (Rect.mk 10 10 80 80))
    by (unfold cropInvariant; cbn; lra).
  destruct (drag_stops_at_the_bounds (Rect.mk 10 10 80 80) 500 0 H)
    as [(_ & Hright & _) _].
  destruct (drag_stops_at_the_bounds (Rect.mk 10 10 80 80) (-500) 0 H)
    as [_ (Hmin & _)].
  split.
  - apply Hright. cbn. lra.
  - apply Hmin. cbn. lra.
Defined.

Lemma window_mousemove_frame e c st :
  brightness (window_mousemove e c st) = brightness st /\
  contrast (window_mousemove e c st) = contrast st /\
  saturation (window_mousemove e c st) = saturation st /\
  rotation (window_mousemove e c st) = rotation st /\
  isCropping (window_mousemove e c st) = isCropping st /\
  dragRef (window_mousemove e c st) = dragRef st.
Proof.
  unfold window_mousemove, handleMouseMove.
  destruct (isCropping st) eqn:Hc; [ | repeat split; auto].
  destruct (dragRef st) eqn:Hd, c; cbn; repeat split; auto.
Qed.

Lemma window_mousemove_inactive e c st :
  dragRef st = None \/ isCropping st = false ->
  window_mousemove e c st = st.
Proof.
  intros H. unfold window_mousemove, handleMouseMove.
  destruct (isCropping st); [ | reflexivity].
  destruct H as [-> | H]; [reflexivity | discriminate].
Qed.

Lemma window_moves_frame (moves : list (MouseEvent.t * option DOMRect.t)) s :
  let s' := fold_left (fun s m => window_mousemove (fst m) (snd m) s) moves s in
  brightness s' = brightness s /\ contrast s' = contrast s /\
  saturation s' = saturation s /\ rotation s' = rotation s /\
  isCropping s' = isCropping s /\ dragRef s' = dragRef s.
Proof.
  revert s. induction moves as [ | m moves IH]; intros s; cbn.
  - repeat split.
  - destruct (IH (window_mousemove (fst m) (snd m) s))
      as (H1 & H2 & H3 & H4 & H5 & H6).
    destruct (window_mousemove_frame (fst m) (snd m) s)
      as (G1 & G2 & G3 & G4 & G5 & G6).
    repeat split; congruence.
Qed.

Lemma window_moves_inactive (moves : list (MouseEvent.t * option DOMRect.t)) s :
  dragRef s = None \/ isCropping s = false ->
  fold_left (fun s m => window_mousemove (fst m) (snd m) s) moves s = s.
Proof.
  intros Hs. induction moves as [ | m moves IH]; cbn.
  - reflexivity.
  - rewrite (window_mousemove_inactive _ _ _ Hs). exact IH.
Qed.

(** X3. Pointer moves change nothing but the crop rectangle, and they
    change nothing at all while no drag is active: before any press, after
    a release observed in crop mode, or while crop mode is off. *)
Theorem pointer_moves_without_drag_change_nothing :
  forall (st : EditorState)
         (moves : list (MouseEvent.t * option DOMRect.t)),
    let run := fold_left (fun s m => window_mousemove (fst m) (snd m) s) moves in
    (brightness (run st) = brightness st /\
     contrast (run st) = contrast st /\
     saturation (run st) = saturation st /\
     rotation (run st) = rotation st /\
     isCropping (run st) = isCropping st /\
     dragRef (run st) = dragRef st) /\
    (dragRef st = None \/ isCropping st = false -> run st = st) /\
    (isCropping st = true -> run (window_mouseup st) = window_mouseup st).
Proof.
  intros st moves run. unfold run.
  split; [apply window_moves_frame | split; [apply window_moves_inactive | ]].
  intros Hc. apply window_moves_inactive. left.
  unfold window_mouseup. rewrite Hc. reflexivity.
Qed.

Lemma pointer_moves_without_drag_change_nothing_witness :
  fold_left (fun s m => window_mousemove (fst m) (snd m) s)
    [(MouseEvent.mk 300 300, Some (DOMRect.mk 500 400))]
    (window_mouseup
       (handleMouseDown (MouseEvent.mk 100 100) move (toggleCrop initialState)))
  = window_mouseup
      (handleMouseDown (MouseEvent.mk 100 100) move (toggleCrop initialState)).
Proof.
  exact (proj2 (proj2 (pointer_moves_without_drag_change_nothing
           (handleMouseDown (MouseEvent.mk 100 100) move (toggleCrop initialState))
           [(MouseEvent.mk 300 300, Some (DOMRect.mk 500 400))])) eq_refl).
Defined.

(** X4. The two rotate buttons undo each other, and clicking the crop
    button twice gives back the state, crop rectangle included. *)
Theorem rotate_and_crop_buttons_round_trip :
  forall st : EditorState,
    rotateLeft (rotateRight st) = st /\
    rotateRight (rotateLeft st) = st /\
    toggleCrop (toggleCrop st) = st.
Proof.
  intros [b c s r crop rect drag].
  unfold rotateLeft, rotateRight, toggleCrop, setRotation, setIsCropping; cbn.
  repeat split; f_equal; try lra. apply negb_involutive.
Qed.

End EditorMore.

(** ** Further properties of a save *)

Section SaveMore.

Import Canvas2D ImageEditor Spec.

Lemma full_turn_angle (r : R) :
  (r + 90 + 90 + 90 + 90) * PI / 180 = r * PI / 180 + 2 * INR 1 * PI.
Proof. simpl INR. field. Qed.

(** X5. The rotation is never normalised: after four clicks on rotate
    right it is 360 more than before, the transform step gives the very
    same surface as before the four clicks, but an editor that was at
    rotation 0 in crop mode, where it showed the crop overlay, now hides
    it and shows the notice. *)
Theorem full_turn_keeps_surface_hides_overlay :
  forall (st : EditorState) (img : Image) (canvas : Canvas),
    let turned := rotateRight (rotateRight (rotateRight (rotateRight st))) in
    rotation turned = rotation st + 360 /\
    transformStep turned img canvas = transformStep st img canvas /\
    (rotation st = 0 -> isCropping st = true ->
     render st = mkOverlay (Some (cropRect st)) false /\
     render turned = mkOverlay None true).
Proof.
  intros st img canvas turned. unfold turned.
  split; [cbn; lra | split].
  - unfold transformStep, rotate, Canvas2D.rotation.
    cbn [rotation rotateRight setRotation brightness contrast saturation].
    rewrite full_turn_angle, cos_period, sin_period. reflexivity.
  - intros H0 Hc. unfold render, rotation_is_zero.
    cbn [rotation rotateRight setRotation isCropping cropRect].
    rewrite H0, Hc.
    destruct (Req_dec_T 0 0) as [ _ | Hne]; [ | lra].
    destruct (Req_dec_T (0 + 90 + 90 + 90 + 90) 0) as [Heq | _]; [lra | ].
    split; reflexivity.
Qed.

Lemma full_turn_keeps_surface_hides_overlay_witness :
  render (toggleCrop initialState)
  = mkOverlay (Some (Rect.mk 10 10 80 80)) false /\
  render (rotateRight (rotateRight (rotateRight (rotateRight
            (toggleCrop initialState)))))
  = mkOverlay None true.
Proof.
  exact (proj2 (proj2 (full_turn_keeps_surface_hides_overlay
           (toggleCrop initialState) (mkImage 4 3) createCanvas))
           eq_refl eq_refl).
Defined.



(** X7. Where the source lands on the surface: at rotation 0 every
    point (u, v) of a w by h source is drawn at (u, v); at 90 degrees at
    (h - v, u), a quarter turn clockwise; at 180 degrees at
    (w - u, h - v); and at -90 degrees at (v, w - u). *)
Theorem source_placement_at_quarter_turns :
  forall (st : EditorState) (img : Image) (u v : R),
    (0 < img_width img)%Z -> (0 < img_height img)%Z ->
    let w := IZR (img_width img) in
    let h := IZR (img_height img) in
    let c := snd (transformStep st img createCanvas) in
    let landing := place (transform c) w h (- w / 2) (- h / 2) w h u v in
    (rotation st = 0 -> landing = (u, v)) /\
    (rotation st = 90 -> landing = (h - v, u)) /\
    (rotation st = 180 -> landing = (w - u, h - v)) /\
    (rotation st = -90 -> landing = (v, w - u)).
Proof.
  intros st img u v Hw Hh w h c landing.
  assert (Hw' : 0 < w) by (apply IZR_lt; lia).
  assert (Hh' : 0 < h) by (apply IZR_lt; lia).
  unfold landing, c. rewrite transformStep_canvas. fold w h.
  cbn [snd transform]. unfold place, apply, centredRotation.
  cbn [fst snd ma mb mc md me mf].
  repeat split; intros ->.
  - replace (0 * PI / 180) with 0 by lra.
    rewrite cos_0, sin_0, Rabs_R1, Rabs_R0. f_equal; field; lra.
  - replace (90 * PI / 180) with (PI / 2) by lra.
    rewrite cos_PI2, sin_PI2, Rabs_R1, Rabs_R0. f_equal; field; lra.
  - replace (180 * PI / 180) with PI by lra.
    rewrite cos_PI, sin_PI, Rabs_R0.
    replace (Rabs (-1)) with 1
      by (unfold Rabs; destruct (Rcase_abs (-1)); lra).
    f_equal; field; lra.
  - replace (-90 * PI / 180) with (- (PI / 2)) by lra.
    rewrite cos_neg, sin_neg, cos_PI2, sin_PI2, Rabs_Ropp, Rabs_R1, Rabs_R0.
    f_equal; field; lra.
Qed.

Lemma source_placement_at_quarter_turns_witness :
  place (transform (snd (transformStep (rotateRight initialState)
                           (mkImage 1000 500) createCanvas)))
        1000 500 (- 1000 / 2) (- 500 / 2) 1000 500 0 0
  = (500 - 0, 0).
Proof.
  refine (proj1 (proj2 (source_placement_at_quarter_turns
            (rotateRight initialState) (mkImage 1000 500) 0 0 _ _)) _).
  - cbn. lia.
  - cbn. lia.
  - cbn. lra.
Defined.

End SaveMore.

(** ** Further properties of the exports and of the file intake *)

Section IntakeAndExportMore.

Import ToolViews ImageUploader SpecMore.

Lemma contains_app (c : ascii) (a b : string) :
  Js.contains c (a ++ b) = Js.contains c a || Js.contains c b.
Proof.
  induction a as [ | d a IH]; cbn; [reflexivity | ].
  now rewrite IH, orb_assoc.
Qed.

(** Splitting what was joined gives the pieces back, when there is at
    least one piece and no piece holds the separator. *)
Lemma split_join (c : ascii) (pieces : list string) :
  pieces <> [] ->
  Forall (fun s => Js.contains c s = false) pieces ->
  Js.split c (Js.join (String c EmptyString) pieces) = pieces.
Proof.
  intros Hne Hall. induction Hall as [ | s rest Hs Hrest IH]; [congruence | ].
  destruct rest as [ | s' rest'].
  - cbn [Js.join]. now apply split_without_separator.
  - cbn [Js.join]. change (String c EmptyString ++ ?x)%string with (String c x).
    rewrite split_at_first_separator by exact Hs.
    f_equal. apply IH. discriminate.
Qed.

Lemma join_avoids (c d : ascii) (pieces : list string) :
  Ascii.eqb d c = false ->
  Forall (fun s => Js.contains c s = false) pieces ->
  Js.contains c (Js.join (String d EmptyString) pieces) = false.
Proof.
  intros Hdc Hall. induction Hall as [ | s rest Hs Hrest IH]; [reflexivity | ].
  destruct rest as [ | s' rest'].
  - exact Hs.
  - cbn [Js.join]. rewrite contains_app, Hs.
    cbn [append Js.contains orb]. rewrite Hdc. exact IH.
Qed.

(** The payload of a base64 data URL is the text after its first comma. *)
Lemma data_url_payload (mime payload : string) :
  Js.contains ","%char mime = false ->
  Js.is_base64 payload = true ->
  nth_error
    (Js.split ","%char ("data:" ++ mime ++ ";base64," ++ payload)%string) 1%nat
  = Some payload.
Proof.
  intros Hmime Hb64.
  change ("data:" ++ mime ++ ";base64," ++ payload)%string
    with ("data:" ++ (mime ++ (";base64" ++ String ","%char payload)))%string.
  rewrite <- !string_app_assoc.
  rewrite split_at_first_separator.
  - rewrite split_without_separator by now apply base64_has_no_comma.
    reflexivity.
  - rewrite !contains_app, Hmime. reflexivity.
Qed.

(** X8. The exported CSV can be read back when no cell holds a comma or
    a line feed and neither the header nor any row is empty: splitting the
    text on line feeds and each line on commas gives the header and the
    rows. *)
Theorem csv_reads_back :
  forall data : TableData,
    Forall (fun line => line <> []) (headers data :: rows data) ->
    cellsAvoid ","%char (headers data :: rows data) ->
    cellsAvoid "010"%char (headers data :: rows data) ->
    map (Js.split ","%char) (Js.split "010"%char (csvContent data))
    = headers data :: rows data.
Proof.
  intros data Hne Hcomma Hlf. unfold csvContent.
  change (Js.join ","%string (headers data)
            :: map (fun row => Js.join ","%string row) (rows data))
    with (map (fun row => Js.join ","%string row) (headers data :: rows data)).
  set (lines := headers data :: rows data) in *.
  assert (Hlines : lines <> []) by (unfold lines; discriminate).
  unfold LF. rewrite split_join.
  - rewrite map_map.
    clear Hlf Hlines. induction lines as [ | l lines IH]; [reflexivity | ].
    cbn [map]. inversion Hne; subst. inversion Hcomma; subst.
    f_equal; [ | now apply IH].
    now apply (split_join ","%char).
  - destruct lines; [congruence | discriminate].
  - unfold cellsAvoid in Hlf. clear Hne Hcomma Hlines.
    induction Hlf as [ | l lines Hl Hrest IH]; constructor; [ | exact IH].
    apply (join_avoids "010"%char ","%char); [reflexivity | exact Hl].
Qed.

Lemma csv_reads_back_witness :
  map (Js.split ","%char)
      (Js.split "010"%char
         (csvContent (mkTable ["A"; "B"]%string [["1"; "2"]%string])))
  = [["A"; "B"]%string; ["1"; "2"]%string].
Proof.
  apply (csv_reads_back (mkTable ["A"; "B"]%string [["1"; "2"]%string])).
  - repeat constructor; discriminate.
  - unfold cellsAvoid. repeat constructor.
  - unfold cellsAvoid. repeat constructor.
Defined.

(** X9. File intake: a file whose type does not start with image/ is
    refused with an alert and is never read; a file whose type does, read
    as the data URL of its type and base64 payload, is selected with that
    URL as preview, that payload as base64 and its own type as MIME type,
    so that the preview is the data URL of the payload under the MIME
    type. *)
Theorem intake_selects_images_only :
  forall (readAsDataURL : File -> option string) (f : File),
    (String.prefix "image/" (fileType f) = false ->
     processFile readAsDataURL f = Rejected "请选择图片文件") /\
    (forall payload : string,
        String.prefix "image/" (fileType f) = true ->
        Js.contains ","%char (fileType f) = false ->
        readAsDataURL f
        = Some ("data:" ++ fileType f ++ ";base64," ++ payload)%string ->
        Js.is_base64 payload = true ->
        processFile readAsDataURL f
        = Selected (mkUploaded f
                      ("data:" ++ fileType f ++ ";base64," ++ payload)%string
                      payload (fileType f)) /\
        wellFormedUpload
          (mkUploaded f ("data:" ++ fileType f ++ ";base64," ++ payload)%string
                      payload (fileType f))).
Proof.
  intros reader f. split.
  - intros Hno. unfold processFile. now rewrite Hno.
  - intros payload Himg Htype Hread Hb64. split; [ | reflexivity].
    unfold processFile. rewrite Himg, Hread. cbn [negb].
    now rewrite (data_url_payload (fileType f) payload Htype Hb64).
Qed.

Lemma intake_selects_images_only_witness :
  processFile standInReader (mkFile "scan.png" "image/png")
  = Selected (mkUploaded (mkFile "scan.png" "image/png")
                "data:image/png;base64,iVBORw0KGgo=" "iVBORw0KGgo="
                "image/png") /\
  processFile standInReader (mkFile "notes.pdf" "application/pdf")
  = Rejected "请选择图片文件".
Proof.
  split.
  - exact (proj1 (proj2 (intake_selects_images_only standInReader
             (mkFile "scan.png" "image/png")) "iVBORw0KGgo="%string
             eq_refl eq_refl eq_refl eq_refl)).
  - exact (proj1 (intake_selects_images_only standInReader
             (mkFile "notes.pdf" "application/pdf")) eq_refl).
Defined.

(** X10. Whatever file reference an edit-save leaves, its preview is the
    data URL of its payload under its MIME type; and when the payload is
    base64 text and the MIME type holds no comma, the text after the first
    comma of the preview, which is what the next save of the editor
    computes from a data URL, is the payload again. *)
Theorem edit_save_keeps_upload_well_formed :
  forall (newBase64 : string) (ws : WrapperState) (f' : UploadedFile),
    currentFile (handleEditSave newBase64 ws) = Some f' ->
    wellFormedUpload f' /\
    base64 f' = newBase64 /\
    (Js.is_base64 newBase64 = true ->
     Js.contains ","%char (mimeType f') = false ->
     nth_error (Js.split ","%char (previewUrl f')) 1%nat = Some (base64 f')).
Proof.
  intros b ws f' Hsave. unfold handleEditSave in Hsave.
  cbn [currentFile] in Hsave.
  destruct (currentFile ws) as [f | ]; [ | discriminate].
  injection Hsave as <-. split; [reflexivity | split; [reflexivity | ]].
  cbn [previewUrl base64 mimeType]. intros Hb64 Hmime.
  exact (data_url_payload (mimeType f) b Hmime Hb64).
Qed.

Lemma edit_save_keeps_upload_well_formed_witness :
  wellFormedUpload
    (mkUploaded (mkFile "scan.png" "image/png")
       "data:image/png;base64,/9j/4AAQSkZJRg==" "/9j/4AAQSkZJRg==" "image/png").
Proof.
  exact (proj1 (edit_save_keeps_upload_well_formed "/9j/4AAQSkZJRg=="
           (mkWrapper
              (Some (mkUploaded (mkFile "scan.png" "image/png")
                       "data:image/png;base64,iVBORw0KGgo=" "iVBORw0KGgo="
                       "image/png"))
              true)
           _ eq_refl)).
Defined.

End IntakeAndExportMore.

(** ** Further properties of the service *)

Section ServiceMore.

Import Service ServiceOps.

Lemma getAiClient_v1_missing (env : Env) :
  falsy (process_env_API_KEY env) = true ->
  getAiClient_v1 env = throw missingKey_v1.
Proof. intros H. unfold getAiClient_v1. now rewrite H. Qed.

Lemma getAiClient_v2_missing (env : Env) :
  falsy (process_env_API_KEY env) = true ->
  (forall k, import_meta_env_VITE_API_KEY env = Some k -> falsy k = true) ->
  getAiClient_v2 env = ([criticalLog], Throw missingKey_v2).
Proof.
  intros H Hvite. unfold getAiClient_v2. rewrite H.
  destruct (import_meta_env_VITE_API_KEY env) as [k | ].
  - now rewrite (Hvite k eq_refl).
  - now rewrite H.
Qed.

Lemma getAiClient_v2_fallback (env : Env) (k : string) :
  falsy (process_env_API_KEY env) = true ->
  import_meta_env_VITE_API_KEY env = Some (Some k) ->
  k <> EmptyString ->
  getAiClient_v2 env = ret k.
Proof.
  intros H Hvite Hk. unfold getAiClient_v2. rewrite H, Hvite.
  destruct k as [ | c k]; [congruence | reflexivity].
Qed.

(** X11. Without an API key no operation contacts the model: whatever
    the model would answer, each of the five operations throws the
    missing-key [Error]; the version without handlers logs nothing, the
    wrapping version, when [import.meta.env] has no key either, logs the
    critical message and then the error under the name of the
    operation. *)
Theorem missing_key_stops_every_operation :
  forall (JSON_parse : string -> Json + string)
         (generateContent : Request -> Outcome Response)
         (generateImage : Request -> Outcome ImageResponse)
         (env : Env) (data mime : string),
    falsy (process_env_API_KEY env) = true ->
    (extractDocumentText_v1 generateContent env data mime
     = ([], Throw missingKey_v1) /\
     extractTableData_v1 JSON_parse generateContent env data mime
     = ([], Throw missingKey_v1) /\
     scanIDCard_v1 JSON_parse generateContent env data mime
     = ([], Throw missingKey_v1) /\
     extractHandwriting_v1 generateContent env data mime
     = ([], Throw missingKey_v1) /\
     removeHandwritingFromImage_v1 generateImage env data mime
     = ([], Throw missingKey_v1)) /\
    ((forall k, import_meta_env_VITE_API_KEY env = Some k -> falsy k = true) ->
     let logs (operation : string) :=
       [criticalLog; mkLog operation (Some missingKey_v2)] in
     extractDocumentText_v2 generateContent env data mime
     = (logs "Gemini API Error (extractDocumentText):"%string,
        Throw missingKey_v2) /\
     extractTableData_v2 JSON_parse generateContent env data mime
     = (logs "Gemini API Error (extractTableData):"%string,
        Throw missingKey_v2) /\
     scanIDCard_v2 JSON_parse generateContent env data mime
     = (logs "Gemini API Error (scanIDCard):"%string, Throw missingKey_v2) /\
     extractHandwriting_v2 generateContent env data mime
     = (logs "Gemini API Error (extractHandwriting):"%string,
        Throw missingKey_v2) /\
     removeHandwritingFromImage_v2 generateImage env data mime
     = (logs "Gemini API Error (removeHandwritingFromImage):"%string,
        Throw missingKey_v2)).
Proof.
  intros JSON_parse gen genImg env data mime Hkey. split.
  - unfold extractDocumentText_v1, extractTableData_v1, scanIDCard_v1,
      extractHandwriting_v1, removeHandwritingFromImage_v1.
    rewrite (getAiClient_v1_missing env Hkey). repeat split.
  - intros Hvite logs.
    unfold extractDocumentText_v2, extractTableData_v2, scanIDCard_v2,
      extractHandwriting_v2, removeHandwritingFromImage_v2.
    rewrite (getAiClient_v2_missing env Hkey Hvite). repeat split.
Qed.

Lemma missing_key_stops_every_operation_witness :
  extractTableData_v2 parse_empty_object_only
    (fun _ => Return (mkResponse (Some "{}"%string)))
    (mkEnv None (Some None)) "iVBORw0KGgo=" "image/png"
  = ([criticalLog;
      mkLog "Gemini API Error (extractTableData):" (Some missingKey_v2)],
     Throw missingKey_v2).
Proof.
  refine (proj1 (proj2 (proj2 (missing_key_stops_every_operation
            parse_empty_object_only
            (fun _ => Return (mkResponse (Some "{}"%string)))
            (fun _ => Return (mkImageResponse None))
            (mkEnv None (Some None)) "iVBORw0KGgo=" "image/png" eq_refl) _))).
  intros k [= <-]. reflexivity.
Defined.

(** X12. Only the wrapping version falls back on [import.meta.env]: with
    no key in [process.env] and a non-empty VITE_API_KEY there, its client
    is built with that key and its operations run exactly as with that key
    in [process.env], while the other version throws the missing-key
    error. *)
Theorem vite_key_is_a_fallback_in_one_version_only :
  forall (JSON_parse : string -> Json + string)
         (generateContent : Request -> Outcome Response)
         (generateImage : Request -> Outcome ImageResponse)
         (env : Env) (k data mime : string),
    falsy (process_env_API_KEY env) = true ->
    import_meta_env_VITE_API_KEY env = Some (Some k) ->
    k <> EmptyString ->
    let direct := mkEnv (Some k) None in
    getAiClient_v2 env = ret k /\
    getAiClient_v1 env = throw missingKey_v1 /\
    extractDocumentText_v2 generateContent env data mime
    = extractDocumentText_v2 generateContent direct data mime /\
    extractTableData_v2 JSON_parse generateContent env data mime
    = extractTableData_v2 JSON_parse generateContent direct data mime /\
    scanIDCard_v2 JSON_parse generateContent env data mime
    = scanIDCard_v2 JSON_parse generateContent direct data mime /\
    extractHandwriting_v2 generateContent env data mime
    = extractHandwriting_v2 generateContent direct data mime /\
    removeHandwritingFromImage_v2 generateImage env data mime
    = removeHandwritingFromImage_v2 generateImage direct data mime.
Proof.
  intros JSON_parse gen genImg env k data mime Hkey Hvite Hk direct.
  assert (Hdirect : getAiClient_v2 direct = ret k).
  { unfold getAiClient_v2, direct; cbn.
    destruct k as [ | c k]; [congruence | reflexivity]. }
  pose proof (getAiClient_v2_fallback env k Hkey Hvite Hk) as Henv.
  split; [exact Henv | split; [exact (getAiClient_v1_missing env Hkey) | ]].
  unfold extractDocumentText_v2, extractTableData_v2, scanIDCard_v2,
    extractHandwriting_v2, removeHandwritingFromImage_v2.
  rewrite Henv, Hdirect. repeat split.
Qed.

Lemma vite_key_is_a_fallback_in_one_version_only_witness :
  getAiClient_v2 (mkEnv None (Some (Some "key"%string))) = ret "key"%string /\
  getAiClient_v1 (mkEnv None (Some (Some "key"%string))) = throw missingKey_v1.
Proof.
  destruct (vite_key_is_a_fallback_in_one_version_only
              parse_empty_object_only
              (fun _ => Return (mkResponse None))
              (fun _ => Return (mkImageResponse None))
              (mkEnv None (Some (Some "key"%string))) "key" "iVBORw0KGgo="
              "image/png" eq_refl eq_refl ltac:(discriminate))
    as (H2 & H1 & _).
  split; assumption.
Defined.

(** X13. A rejected request reaches the caller as it is, from every
    operation: the version without handlers logs nothing, the wrapping
    version logs the rejection once under the name of the operation and
    rethrows it. *)
Theorem rejected_request_reaches_the_caller :
  forall (JSON_parse : string -> Json + string)
         (generateContent : Request -> Outcome Response)
         (generateImage : Request -> Outcome ImageResponse)
         (env : Env) (data mime : string) (e : Exn),
    falsy (process_env_API_KEY env) = false ->
    (forall req, generateContent req = Throw e) ->
    (forall req, generateImage req = Throw e) ->
    (extractDocumentText_v1 generateContent env data mime = ([], Throw e) /\
     extractTableData_v1 JSON_parse generateContent env data mime
     = ([], Throw e) /\
     scanIDCard_v1 JSON_parse generateContent env data mime = ([], Throw e) /\
     extractHandwriting_v1 generateContent env data mime = ([], Throw e) /\
     removeHandwritingFromImage_v1 generateImage env data mime
     = ([], Throw e)) /\
    (extractDocumentText_v2 generateContent env data mime
     = ([mkLog "Gemini API Error (extractDocumentText):" (Some e)], Throw e) /\
     extractTableData_v2 JSON_parse generateContent env data mime
     = ([mkLog "Gemini API Error (extractTableData):" (Some e)], Throw e) /\
     scanIDCard_v2 JSON_parse generateContent env data mime
     = ([mkLog "Gemini API Error (scanIDCard):" (Some e)], Throw e) /\
     extractHandwriting_v2 generateContent env data mime
     = ([mkLog "Gemini API Error (extractHandwriting):" (Some e)], Throw e) /\
     removeHandwritingFromImage_v2 generateImage env data mime
     = ([mkLog "Gemini API Error (removeHandwritingFromImage):" (Some e)],
        Throw e)).
Proof.
  intros JSON_parse gen genImg env data mime e Hkey Hgen HgenImg.
  destruct (getAiClient_v1_ok env Hkey) as [k1 H1].
  destruct (getAiClient_v2_ok env Hkey) as [k2 H2].
  split.
  - unfold extractDocumentText_v1, extractTableData_v1, scanIDCard_v1,
      extractHandwriting_v1, removeHandwritingFromImage_v1.
    rewrite H1, !Hgen, HgenImg. repeat split.
  - unfold extractDocumentText_v2, extractTableData_v2, scanIDCard_v2,
      extractHandwriting_v2, removeHandwritingFromImage_v2.
    rewrite H2, !Hgen, HgenImg. repeat split.
Qed.

Lemma rejected_request_reaches_the_caller_witness :
  scanIDCard_v2 parse_empty_object_only
    (fun _ => Throw (Rejection "quota exceeded"))
    (mkEnv (Some "key"%string) None) "iVBORw0KGgo=" "image/png"
  = ([mkLog "Gemini API Error (scanIDCard):"
        (Some (Rejection "quota exceeded"))],
     Throw (Rejection "quota exceeded")).
Proof.
  exact (proj1 (proj2 (proj2 (proj2 (rejected_request_reaches_the_caller
           parse_empty_object_only
           (fun _ => Throw (Rejection "quota exceeded"))
           (fun _ => Throw (Rejection "quota exceeded"))
           (mkEnv (Some "key"%string) None) "iVBORw0KGgo=" "image/png"
           (Rejection "quota exceeded") eq_refl
           (fun _ => eq_refl) (fun _ => eq_refl)))))).
Defined.

End ServiceMore.

(** ** The image operation and the build configuration *)

Section ImageAndConfigMore.

Import Service ServiceOps ViteConfig SpecMore.

Lemma firstInlineData_skips (before : list Part) (rest : list Part) :
  Forall noInlineData before ->
  firstInlineData (before ++ rest) = firstInlineData rest.
Proof.
  induction 1 as [ | p before Hp Hbefore IH]; [reflexivity | ].
  cbn. destruct (inlineData p) as [[[d | ]] | ] eqn:Hdata; try exact IH.
  rewrite (Hp d Hdata). exact IH.
Qed.

Lemma firstInlineData_none (ps : list Part) :
  firstInlineData ps = None <-> Forall noInlineData ps.
Proof.
  induction ps as [ | p ps IH]; cbn.
  - split; [constructor | reflexivity].
  - destruct (inlineData p) as [[[d | ]] | ] eqn:Hp.
    + destruct d as [ | c d]; cbn.
      * rewrite IH. split.
        -- intros H. constructor; [ | exact H].
           intros d' Hd'. rewrite Hp in Hd'. now injection Hd' as <-.
        -- intros H. now inversion H.
      * split; [discriminate | ].
        intros H. inversion H as [ | ? ? Hno _]; subst.
        specialize (Hno _ Hp). discriminate.
    + rewrite IH. split.
      * intros H. constructor; [ | exact H]. intros d' Hd'.
        rewrite Hp in Hd'. discriminate.
      * intros H. now inversion H.
    + rewrite IH. split.
      * intros H. constructor; [ | exact H]. intros d' Hd'.
        rewrite Hp in Hd'. discriminate.
      * intros H. now inversion H.
Qed.

(** X14. Handwriting removal returns the payload of the first part of
    the first candidate that carries a non-empty inline payload, whatever
    the later parts and the other candidates hold, and throws
    "No image generated." exactly when the first candidate has no such
    part, in particular when there is no candidate; the wrapping version
    ends the same way and logs only the failure. *)
Theorem removal_returns_first_inline_image :
  forall (generateImage : Request -> Outcome ImageResponse)
         (env : Env) (data mime : string) (resp : ImageResponse),
    falsy (process_env_API_KEY env) = false ->
    (forall req, generateImage req = Return resp) ->
    let v1 := removeHandwritingFromImage_v1 generateImage env data mime in
    let v2 := removeHandwritingFromImage_v2 generateImage env data mime in
    (forall (before after : list Part) (p : Part) (d : string),
        firstCandidateParts resp = (before ++ p :: after)%list ->
        Forall noInlineData before ->
        inlineData p = Some (mkInline (Some d)) -> d <> EmptyString ->
        v1 = ([], Return d) /\ v2 = ([], Return d)) /\
    (Forall noInlineData (firstCandidateParts resp) <->
     v1 = ([], Throw (Error "No image generated."))) /\
    (Forall noInlineData (firstCandidateParts resp) ->
     v2 = ([mkLog "Gemini API Error (removeHandwritingFromImage):"
              (Some (Error "No image generated."))],
           Throw (Error "No image generated."))) /\
    (forall c others,
        candidates resp = Some (c :: others) ->
        firstCandidateParts resp
        = firstCandidateParts (mkImageResponse (Some [c]))) /\
    (candidates resp = None \/ candidates resp = Some [] ->
     firstCandidateParts resp = []).
Proof.
  intros genImg env data mime resp Hkey Hgen v1 v2.
  destruct (getAiClient_v1_ok env Hkey) as [k1 H1].
  destruct (getAiClient_v2_ok env Hkey) as [k2 H2].
  assert (Hv1 : v1 = match firstInlineData (firstCandidateParts resp) with
                     | Some d => ([], Return d)
                     | None => ([], Throw (Error "No image generated."))
                     end).
  { unfold v1, removeHandwritingFromImage_v1. rewrite H1, Hgen.
    cbn. destruct (firstInlineData (firstCandidateParts resp)); reflexivity. }
  assert (Hv2 : v2 = match firstInlineData (firstCandidateParts resp) with
                     | Some d => ([], Return d)
                     | None =>
                         ([mkLog "Gemini API Error (removeHandwritingFromImage):"
                             (Some (Error "No image generated."))],
                          Throw (Error "No image generated."))
                     end).
  { unfold v2, removeHandwritingFromImage_v2. rewrite H2, Hgen.
    cbn. destruct (firstInlineData (firstCandidateParts resp)); reflexivity. }
  split; [ | split; [ | split; [ | split]]].
  - intros before after p d Hparts Hbefore Hp Hd.
    assert (Hfirst : firstInlineData (firstCandidateParts resp) = Some d).
    { rewrite Hparts, (firstInlineData_skips before _ Hbefore).
      cbn. rewrite Hp. destruct d; [congruence | reflexivity]. }
    rewrite Hv1, Hv2, Hfirst. split; reflexivity.
  - rewrite <- firstInlineData_none, Hv1.
    destruct (firstInlineData (firstCandidateParts resp));
      split; congruence.
  - intros Hnone. apply firstInlineData_none in Hnone.
    now rewrite Hv2, Hnone.
  - intros c others Hc. unfold firstCandidateParts. now rewrite Hc.
  - intros [Hc | Hc]; unfold firstCandidateParts; now rewrite Hc.
Qed.

Lemma removal_returns_first_inline_image_witness :
  removeHandwritingFromImage_v1
    (fun _ => Return (mkImageResponse
       (Some [mkCandidate (Some (mkContent (Some
          [mkPart None; mkPart (Some (mkInline (Some "iVBORw0KGgo="%string)));
           mkPart (Some (mkInline (Some "AAAA"%string)))])))])))
    (mkEnv (Some "key"%string) None) "/9j/4AAQSkZJRg==" "image/jpeg"
  = ([], Return "iVBORw0KGgo="%string).
Proof.
  refine (proj1 (proj1 (removal_returns_first_inline_image
    (fun _ => Return (mkImageResponse
       (Some [mkCandidate (Some (mkContent (Some
          [mkPart None; mkPart (Some (mkInline (Some "iVBORw0KGgo="%string)));
           mkPart (Some (mkInline (Some "AAAA"%string)))])))])))
    (mkEnv (Some "key"%string) None) "/9j/4AAQSkZJRg==" "image/jpeg"
    _ eq_refl (fun _ => eq_refl))
    [mkPart None] [mkPart (Some (mkInline (Some "AAAA"%string)))]
    (mkPart (Some (mkInline (Some "iVBORw0KGgo="%string))))
    "iVBORw0KGgo="%string eq_refl _ eq_refl _)).
  - repeat constructor. intros d Hd. discriminate.
  - discriminate.
Defined.

Lemma or_undefined_spec (a b : option string) :
  firstNonEmpty [a; b] = firstNonEmpty [or_undefined a b].
Proof.
  unfold or_undefined; cbn.
  destruct (falsy a) eqn:Ha; [reflexivity | now rewrite Ha].
Qed.

Lemma firstNonEmpty_cons_or (a b : option string) (rest : list (option string)) :
  firstNonEmpty (or_undefined a b :: rest) = firstNonEmpty (a :: b :: rest).
Proof.
  unfold or_undefined; cbn.
  destruct (falsy a) eqn:Ha; [reflexivity | now rewrite Ha].
Qed.

Lemma firstNonEmpty_truthy (l : list (option string)) (k : option string) :
  firstNonEmpty l = k -> k <> None -> falsy k = false.
Proof.
  induction l as [ | a l IH]; cbn; intros H Hk.
  - congruence.
  - destruct (falsy a) eqn:Ha; [now apply IH | congruence].
Qed.

(** X15. The key that the build injects is the first non-empty one of
    the six environment entries, in the order API_KEY, VITE_API_KEY,
    GOOGLE_API_KEY with the loaded file before the process each time, and
    the literal of the source when all are missing or empty; with a
    non-empty literal it is never empty, so in such a build neither
    version of the service ever throws the missing-key error. *)
Theorem injected_key_is_first_non_empty :
  forall (literal : string) (s : KeySources)
         (importMeta : option (option string)),
    literal <> EmptyString ->
    apiKey literal s =
      match firstNonEmpty
              [env_API_KEY s; process_API_KEY s; env_VITE_API_KEY s;
               process_VITE_API_KEY s; env_GOOGLE_API_KEY s;
               process_GOOGLE_API_KEY s] with
      | Some k => k
      | None => literal
      end /\
    apiKey literal s <> EmptyString /\
    getAiClient_v1 (builtEnv literal s importMeta) = ret (apiKey literal s) /\
    getAiClient_v2 (builtEnv literal s importMeta) = ret (apiKey literal s).
Proof.
  intros literal s importMeta Hlit.
  assert (Hchain :
    apiKey literal s =
      match firstNonEmpty
              [env_API_KEY s; process_API_KEY s; env_VITE_API_KEY s;
               process_VITE_API_KEY s; env_GOOGLE_API_KEY s;
               process_GOOGLE_API_KEY s] with
      | Some k => k
      | None => literal
      end).
  { rewrite <- !firstNonEmpty_cons_or. unfold apiKey.
    set (chain := or_undefined _ (process_GOOGLE_API_KEY s)).
    cbn. destruct chain as [[ | c k] | ]; reflexivity. }
  assert (Hne : apiKey literal s <> EmptyString).
  { rewrite Hchain.
    destruct (firstNonEmpty _) as [k | ] eqn:Hk; [ | exact Hlit].
    pose proof (firstNonEmpty_truthy _ _ Hk ltac:(discriminate)) as Ht.
    destruct k; [discriminate | discriminate]. }
  split; [exact Hchain | split; [exact Hne | ]].
  unfold getAiClient_v1, getAiClient_v2, builtEnv; cbn.
  destruct (apiKey literal s) as [ | c k]; [congruence | ].
  split; reflexivity.
Qed.

Lemma injected_key_is_first_non_empty_witness :
  apiKey "fallback" (mkSources None (Some ""%string) None (Some "vite"%string)
                               (Some "google"%string) None)
  = "vite"%string.
Proof.
  exact (proj1 (injected_key_is_first_non_empty "fallback"
           (mkSources None (Some ""%string) None (Some "vite"%string)
                      (Some "google"%string) None)
           None ltac:(discriminate))).
Defined.

End ImageAndConfigMore.

(** ** Properties of the tool views *)

Section ViewsMore.

Import Service ServiceOps ToolViews Views SpecMore.

Lemma or_else_not_empty (m : option string) (fallback : string) :
  fallback <> EmptyString -> falsy (Some (Js.or_else m fallback)) = false.
Proof.
  intros Hf. destruct m as [[ | c m] | ]; cbn; try reflexivity;
    destruct fallback; congruence.
Qed.

Lemma process_settles {A : Type} (call : string -> string -> M A)
      (wrap : A -> ResultValue) (fallback : string) :
  fallback <> EmptyString -> settles (process call wrap fallback).
Proof.
  intros Hf vs. unfold process, after. split.
  - intros ->. reflexivity.
  - intros Hfile. destruct (file vs) as [f | ]; [clear Hfile | congruence].
    destruct (call (base64 f) (mimeType f)) as [l [a | e]];
      cbn [snd last isLoading error result].
    + split; [reflexivity | split; [reflexivity | left]].
      split; [reflexivity | discriminate].
    + split; [reflexivity | split; [reflexivity | right]].
      split; [reflexivity | ].
      unfold errorShown; cbn [error]. now rewrite or_else_not_empty.
Qed.

(** X16. Every [handleProcess] of the four views settles, whatever the
    service does: without a file nothing happens; with one, the view goes
    to loading and then to one final state that is not loading and holds
    either a result and no error, or no result and an error message that
    is not empty and so is shown. *)
Theorem every_run_settles :
  forall (extractDocumentText extractHandwriting removeHandwritingFromImage :
            string -> string -> M string)
         (extractTableData scanIDCard : string -> string -> M Json),
    settles (ConverterView_handleProcess extractDocumentText) /\
    settles (TableExtractorView_handleProcess extractTableData) /\
    settles (ScannerView_handleProcess IdMode scanIDCard extractHandwriting) /\
    settles (ScannerView_handleProcess OcrMode scanIDCard extractHandwriting) /\
    settles (HandwritingRemoverView_handleProcess removeHandwritingFromImage).
Proof.
  intros doc hand remove table scan.
  unfold ConverterView_handleProcess, TableExtractorView_handleProcess,
    ScannerView_handleProcess, HandwritingRemoverView_handleProcess.
  split; [ | split; [ | split; [ | split]]];
    apply process_settles; discriminate.
Qed.

(** What the structured operations give on a text that does not parse. *)
Lemma structured_parse_failure (JSON_parse : string -> Json + string)
      (gen : Request -> Outcome Response) (env : Env) (data mime : string)
      (resp : Response) (t msg : string) :
  falsy (process_env_API_KEY env) = false ->
  (forall req, gen req = Return resp) ->
  text resp = Some t -> t <> EmptyString ->
  JSON_parse t = inr msg ->
  extractTableData_v1 JSON_parse gen env data mime
  = ([mkLog "Failed to parse table JSON" (Some (SyntaxError msg))],
     Throw (Error "Could not extract table data.")) /\
  scanIDCard_v1 JSON_parse gen env data mime
  = ([mkLog "Failed to parse ID Card JSON" (Some (SyntaxError msg))],
     Throw (Error "Could not scan ID card.")) /\
  extractTableData_v2 JSON_parse gen env data mime
  = ([mkLog "Gemini API Error (extractTableData):" (Some (SyntaxError msg))],
     Throw (SyntaxError msg)) /\
  scanIDCard_v2 JSON_parse gen env data mime
  = ([mkLog "Gemini API Error (scanIDCard):" (Some (SyntaxError msg))],
     Throw (SyntaxError msg)).
Proof.
  intros Hkey Hgen Htext Hne Hparse.
  unfold extractTableData_v1, scanIDCard_v1, extractTableData_v2, scanIDCard_v2.
  rewrite !(v1_after_response JSON_parse gen _ _ _ _ _ resp) by auto.
  rewrite !(v2_after_response JSON_parse gen _ _ _ _ _ resp) by auto.
  rewrite Htext, (or_else_truthy _ _ Hne).
  unfold parse. rewrite Hparse. repeat split.
Qed.

(** X17. When the response of a table extraction or of an ID-card scan
    does not parse, what the user reads depends on the version of the
    service: with the parse-specific handler, "Could not extract table
    data." or "Could not scan ID card."; with the wrapping version, the
    message of the [SyntaxError] of [JSON.parse], or the fallback of the
    view when that message is empty. *)
Theorem parse_failure_message_shown :
  forall (JSON_parse : string -> Json + string)
         (generateContent : Request -> Outcome Response)
         (extractHandwriting : string -> string -> M string)
         (env : Env) (vs : ViewState) (f : UploadedFile) (resp : Response)
         (t msg : string),
    file vs = Some f ->
    falsy (process_env_API_KEY env) = false ->
    (forall req, generateContent req = Return resp) ->
    text resp = Some t -> t <> EmptyString ->
    JSON_parse t = inr msg ->
    let shown (run : list LogEntry * list ProcessingState) :=
      error (after run vs) in
    shown (TableExtractorView_handleProcess
             (extractTableData_v1 JSON_parse generateContent env) vs)
    = Some "Could not extract table data."%string /\
    shown (ScannerView_handleProcess IdMode
             (scanIDCard_v1 JSON_parse generateContent env)
             extractHandwriting vs)
    = Some "Could not scan ID card."%string /\
    shown (TableExtractorView_handleProcess
             (extractTableData_v2 JSON_parse generateContent env) vs)
    = Some (Js.or_else (Some msg) "表格提取失败。") /\
    shown (ScannerView_handleProcess IdMode
             (scanIDCard_v2 JSON_parse generateContent env)
             extractHandwriting vs)
    = Some (Js.or_else (Some msg) "扫描识别失败。").
Proof.
  intros JSON_parse gen hand env vs f resp t msg Hfile Hkey Hgen Htext Hne
         Hparse shown.
  destruct (structured_parse_failure JSON_parse gen env (base64 f) (mimeType f)
              resp t msg Hkey Hgen Htext Hne Hparse) as (H1 & H2 & H3 & H4).
  unfold shown, after, TableExtractorView_handleProcess,
    ScannerView_handleProcess, process.
  rewrite Hfile, H1, H2, H3, H4. repeat split.
Qed.

Lemma parse_failure_message_shown_witness :
  error (after
           (TableExtractorView_handleProcess
              (extractTableData_v2 parse_empty_object_only
                 (fun _ => Return (mkResponse (Some "not json"%string)))
                 (mkEnv (Some "key"%string) None))
              (mkView (Some (mkUploaded (mkFile "scan.png" "image/png")
                               "data:image/png;base64,iVBORw0KGgo="
                               "iVBORw0KGgo=" "image/png"))
                      idle))
           (mkView (Some (mkUploaded (mkFile "scan.png" "image/png")
                            "data:image/png;base64,iVBORw0KGgo="
                            "iVBORw0KGgo=" "image/png"))
                   idle))
  = Some "Unexpected token"%string.
Proof.
  refine (proj1 (proj2 (proj2 (parse_failure_message_shown
    parse_empty_object_only
    (fun _ => Return (mkResponse (Some "not json"%string)))
    (fun _ _ => ret EmptyString)
    (mkEnv (Some "key"%string) None)
    (mkView (Some (mkUploaded (mkFile "scan.png" "image/png")
                     "data:image/png;base64,iVBORw0KGgo="
                     "iVBORw0KGgo=" "image/png"))
            idle)
    (mkUploaded (mkFile "scan.png" "image/png")
       "data:image/png;base64,iVBORw0KGgo=" "iVBORw0KGgo=" "image/png")
    (mkResponse (Some "not json"%string)) "not json" "Unexpected token"
    eq_refl eq_refl (fun _ => eq_refl) eq_refl _ eq_refl)))).
  discriminate.
Defined.

(** What the structured operations give on a missing or empty text. *)
Lemma structured_empty_response (JSON_parse : string -> Json + string)
      (gen : Request -> Outcome Response) (env : Env) (data mime : string)
      (resp : Response) :
  JSON_parse "{}"%string = inl (JObject []) ->
  falsy (process_env_API_KEY env) = false ->
  (forall req, gen req = Return resp) ->
  falsy (text resp) = true ->
  extractTableData_v1 JSON_parse gen env data mime
  = ([], Return (JObject [])) /\
  extractTableData_v2 JSON_parse gen env data mime
  = ([], Return (JObject [])).
Proof.
  intros Hparse Hkey Hgen Htext.
  unfold extractTableData_v1, extractTableData_v2.
  rewrite !(v1_after_response JSON_parse gen _ _ _ _ _ resp) by auto.
  rewrite !(v2_after_response JSON_parse gen _ _ _ _ _ resp) by auto.
  rewrite (or_else_falsy _ _ Htext).
  unfold parse. rewrite Hparse. split; reflexivity.
Qed.

(** X18. A table extraction whose response has no text does not fail in
    the service, and then the table view cannot render: with either
    version of the service the view ends with the empty object as its
    result and no error, the result card is due, and rendering it throws
    a [TypeError], because the object has no headers to map over.  More
    generally the card throws for every result that is truthy and whose
    headers or rows are not arrays. *)
Theorem empty_table_response_breaks_the_card :
  forall (JSON_parse : string -> Json + string)
         (generateContent : Request -> Outcome Response)
         (env : Env) (vs : ViewState) (f : UploadedFile) (resp : Response),
    file vs = Some f ->
    JSON_parse "{}"%string = inl (JObject []) ->
    falsy (process_env_API_KEY env) = false ->
    (forall req, generateContent req = Return resp) ->
    falsy (text resp) = true ->
    let final_v1 :=
      after (TableExtractorView_handleProcess
               (extractTableData_v1 JSON_parse generateContent env) vs) vs in
    let final_v2 :=
      after (TableExtractorView_handleProcess
               (extractTableData_v2 JSON_parse generateContent env) vs) vs in
    final_v1 = mkProcessing false None (Some (JsonResult (JObject []))) /\
    final_v2 = final_v1 /\
    resultShown final_v1 = true /\
    errorShown final_v1 = false /\
    tableCard final_v1 = RenderThrows /\
    (forall st r,
        result st = Some r -> truthy r = true ->
        asArray (property "headers" r) = None \/
        asArray (property "rows" r) = None ->
        tableCard st = RenderThrows).
Proof.
  intros JSON_parse gen env vs f resp Hfile Hparse Hkey Hgen Htext
         final_v1 final_v2.
  destruct (structured_empty_response JSON_parse gen env (base64 f)
              (mimeType f) resp Hparse Hkey Hgen Htext) as [H1 H2].
  assert (Hf1 : final_v1
                = mkProcessing false None (Some (JsonResult (JObject [])))).
  { unfold final_v1, after, TableExtractorView_handleProcess, process.
    now rewrite Hfile, H1. }
  assert (Hf2 : final_v2 = final_v1).
  { rewrite Hf1.
    unfold final_v2, after, TableExtractorView_handleProcess, process.
    now rewrite Hfile, H2. }
  split; [exact Hf1 | split; [exact Hf2 | ]].
  rewrite Hf1. repeat split.
  intros st r Hr Ht Hmissing. unfold tableCard. rewrite Hr, Ht.
  destruct Hmissing as [-> | Hrows]; [reflexivity | ].
  destruct (asArray (property "headers" r)); [ | reflexivity].
  now rewrite Hrows.
Qed.

Lemma empty_table_response_breaks_the_card_witness :
  tableCard
    (after
       (TableExtractorView_handleProcess
          (extractTableData_v1 parse_empty_object_only
             (fun _ => Return (mkResponse None))
             (mkEnv (Some "key"%string) None))
          (mkView (Some (mkUploaded (mkFile "scan.png" "image/png")
                           "data:image/png;base64,iVBORw0KGgo="
                           "iVBORw0KGgo=" "image/png"))
                  idle))
       (mkView (Some (mkUploaded (mkFile "scan.png" "image/png")
                        "data:image/png;base64,iVBORw0KGgo="
                        "iVBORw0KGgo=" "image/png"))
               idle))
  = RenderThrows.
Proof.
  exact (proj1 (proj2 (proj2 (proj2 (proj2
    (empty_table_response_breaks_the_card
       parse_empty_object_only
       (fun _ => Return (mkResponse None))
       (mkEnv (Some "key"%string) None)
       (mkView (Some (mkUploaded (mkFile "scan.png" "image/png")
                        "data:image/png;base64,iVBORw0KGgo="
                        "iVBORw0KGgo=" "image/png"))
               idle)
       (mkUploaded (mkFile "scan.png" "image/png")
          "data:image/png;base64,iVBORw0KGgo=" "iVBORw0KGgo=" "image/png")
       (mkResponse None)
       eq_refl eq_refl eq_refl (fun _ => eq_refl) eq_refl)))))).
Defined.

(** X19. A transcription whose response has no text gives the empty
    string, in both versions of the service and for documents as for
    handwriting, and the view then shows nothing at all: its final state
    holds the empty string as result, which is falsy, and no error, so
    neither the result card nor the alert is rendered. *)
Theorem empty_transcription_shows_nothing :
  forall (generateContent : Request -> Outcome Response)
         (scanIDCard : string -> string -> M Json)
         (env : Env) (vs : ViewState) (f : UploadedFile) (resp : Response),
    file vs = Some f ->
    falsy (process_env_API_KEY env) = false ->
    (forall req, generateContent req = Return resp) ->
    falsy (text resp) = true ->
    let silent (run : list LogEntry * list ProcessingState) :=
      fst run = [] /\
      after run vs = mkProcessing false None (Some (TextResult EmptyString)) /\
      resultShown (after run vs) = false /\
      errorShown (after run vs) = false in
    silent (ConverterView_handleProcess
              (extractDocumentText_v1 generateContent env) vs) /\
    silent (ConverterView_handleProcess
              (extractDocumentText_v2 generateContent env) vs) /\
    silent (ScannerView_handleProcess OcrMode scanIDCard
              (extractHandwriting_v1 generateContent env) vs) /\
    silent (ScannerView_handleProcess OcrMode scanIDCard
              (extractHandwriting_v2 generateContent env) vs).
Proof.
  intros gen scan env vs f resp Hfile Hkey Hgen Htext silent.
  destruct (getAiClient_v1_ok env Hkey) as [k1 H1].
  destruct (getAiClient_v2_ok env Hkey) as [k2 H2].
  assert (Hd1 : extractDocumentText_v1 gen env (base64 f) (mimeType f)
                = ([], Return EmptyString)).
  { unfold extractDocumentText_v1. rewrite H1, Hgen. cbn.
    now rewrite (or_else_falsy _ _ Htext). }
  assert (Hd2 : extractDocumentText_v2 gen env (base64 f) (mimeType f)
                = ([], Return EmptyString)).
  { unfold extractDocumentText_v2. rewrite H2, Hgen. cbn.
    now rewrite (or_else_falsy _ _ Htext). }
  assert (Hh1 : extractHandwriting_v1 gen env (base64 f) (mimeType f)
                = ([], Return EmptyString)).
  { unfold extractHandwriting_v1. rewrite H1, Hgen. cbn.
    now rewrite (or_else_falsy _ _ Htext). }
  assert (Hh2 : extractHandwriting_v2 gen env (base64 f) (mimeType f)
                = ([], Return EmptyString)).
  { unfold extractHandwriting_v2. rewrite H2, Hgen. cbn.
    now rewrite (or_else_falsy _ _ Htext). }
  unfold silent, after, ConverterView_handleProcess,
    ScannerView_handleProcess, process.
  rewrite Hfile, Hd1, Hd2, Hh1, Hh2. repeat split.
Qed.

Lemma empty_transcription_shows_nothing_witness :
  resultShown
    (after
       (ConverterView_handleProcess
          (extractDocumentText_v2 (fun _ => Return (mkResponse None))
             (mkEnv (Some "key"%string) None))
          (mkView (Some (mkUploaded (mkFile "scan.png" "image/png")
                           "data:image/png;base64,iVBORw0KGgo="
                           "iVBORw0KGgo=" "image/png"))
                  idle))
       (mkView (Some (mkUploaded (mkFile "scan.png" "image/png")
                        "data:image/png;base64,iVBORw0KGgo="
                        "iVBORw0KGgo=" "image/png"))
               idle))
  = false.
Proof.
  exact (proj1 (proj2 (proj2 (proj1 (proj2
    (empty_transcription_shows_nothing
       (fun _ => Return (mkResponse None))
       (fun _ _ => ret JNull)
       (mkEnv (Some "key"%string) None)
       (mkView (Some (mkUploaded (mkFile "scan.png" "image/png")
                        "data:image/png;base64,iVBORw0KGgo="
                        "iVBORw0KGgo=" "image/png"))
               idle)
       (mkUploaded (mkFile "scan.png" "image/png")
          "data:image/png;base64,iVBORw0KGgo=" "iVBORw0KGgo=" "image/png")
       (mkResponse None)
       eq_refl eq_refl (fun _ => eq_refl) eq_refl)))))).
Defined.

(** X20. Saving an edit from a view replaces the payload and the preview
    of its file, exactly as the wrapper's callback does on its own, and
    discards what the view had: the processing state is idle again, with
    no result and no error; without a file the view is left as it is. In
    both cases the editor is closed. *)
Theorem edit_save_discards_the_previous_result :
  forall (newBase64 : string) (vs : ViewState) (editing : bool),
    snd (wrapperEditSave newBase64 vs editing) = false /\
    (file vs = None -> fst (wrapperEditSave newBase64 vs editing) = vs) /\
    (file vs <> None ->
     fst (wrapperEditSave newBase64 vs editing)
     = mkView (currentFile (handleEditSave newBase64
                              (mkWrapper (file vs) editing)))
              idle /\
     resultShown (state (fst (wrapperEditSave newBase64 vs editing))) = false /\
     errorShown (state (fst (wrapperEditSave newBase64 vs editing))) = false).
Proof.
  intros b vs editing. unfold wrapperEditSave, handleEditSave, setFile.
  cbn [fst snd currentFile].
  split; [reflexivity | split].
  - intros ->. reflexivity.
  - intros Hfile. destruct (file vs) as [f | ]; [ | congruence].
    repeat split.
Qed.

End ViewsMore.
